(** * tinytls: a shallow embedding of the TLS 1.3 client engine

    This development embeds the handshake and record engine of the
    [tinytls] package ([src/tinytls/__init__.py], classes [TLSContext] and
    [TLSSocket]) and of its predecessor [src/tinytls13/tlssocket.py], and
    proves properties of the transcript, the key schedule, the record
    framing and the application receive path.

    Byte strings are lists of [byte]; Python integers are [Z]; an object is
    a record and a method is a function from the object's state to a
    [result] holding the new state (a raised exception loses the state, as
    every failure is fatal for the connection).  The modules the engine
    imports ([utils], [hkdf], [x25519], [chacha20poly1305], [protocol])
    are either abstracted by the class [Primitives] or, for the framing
    helpers the statements depend on, modelled from the specification. *)

From Stdlib Require Import String List ZArith Lia Bool.
From Stdlib Require Import Strings.Byte.
From Equations Require Import Equations.
Import ListNotations.

Set Implicit Arguments.

(** ** Byte strings and Python slices *)

Definition bytes := list byte.

Fixpoint bytes_eqb (a b : bytes) : bool :=
  match a, b with
  | [], [] => true
  | x :: a', y :: b' => Byte.eqb x y && bytes_eqb a' b'
  | _, _ => false
  end.

(** [b"..."] of the source: the bytes of an ASCII literal. *)
Definition lit (s : string) : bytes := list_byte_of_string s.

(** A Python index into a sequence of length [len]: a negative index counts
    from the end; the slice operations below clamp it to the sequence. *)
Definition py_index (len : nat) (i : Z) : nat :=
  if (i <? 0)%Z then Z.to_nat (Z.of_nat len + i) else Z.to_nat i.

(** [s[:j]] *)
Definition slice_to (s : bytes) (j : Z) : bytes :=
  firstn (py_index (length s) j) s.

(** [s[i:]] *)
Definition slice_from (s : bytes) (i : Z) : bytes :=
  skipn (py_index (length s) i) s.

(** [s[i:j]] *)
Definition slice (s : bytes) (i j : Z) : bytes :=
  let i' := py_index (length s) i in
  let j' := py_index (length s) j in
  firstn (j' - i') (skipn i' s).

(** Python truthiness of a byte string: [if s] / [while s]. *)
Definition truthy (s : bytes) : bool :=
  match s with [] => false | _ :: _ => true end.

(** ** [utils]: integer conversions and padding *)

Definition byte_of_Z (z : Z) : byte :=
  match Byte.of_N (Z.to_N (z mod 256)) with
  | Some x => x
  | None => x00
  end.

Definition Z_of_byte (x : byte) : Z := Z.of_N (Byte.to_N x).

(** Modelled from the spec: [utils.bytes_to_bint] is not among the source
    files; the spec reads handshake lengths as [uint24] and record lengths
    as [uint16], that is big-endian unsigned integers. *)
Definition bytes_to_bint (s : bytes) : Z :=
  fold_left (fun acc x => (acc * 256 + Z_of_byte x)%Z) s 0%Z.

(** Modelled from the spec: [utils.bint_to_bytes(v, ln)] is not among the
    source files; the spec writes [uint16(len)] and [uint24(len)], the
    big-endian encoding of [v] on [ln] bytes. *)
Fixpoint bint_to_bytes (v : Z) (ln : nat) : bytes :=
  match ln with
  | O => []
  | S k => bint_to_bytes (v / 256) k ++ [byte_of_Z (v mod 256)]
  end.

(** Modelled from the spec: [utils.pad16(ln)] is not among the source
    files; the spec pads the inner plaintext with zero bytes to the next
    16-byte boundary, so that the padded length is a multiple of 16. *)
Definition pad16 (ln : nat) : bytes :=
  repeat x00 ((16 - ln mod 16) mod 16).

(** ** [protocol]: content types, handshake types and alert bytes *)

(** Modelled from the spec: the constants of [protocol] are not among the
    source files; the spec fixes handshake = 22, application_data = 23,
    change_cipher_spec = 20, alert = 21, the legacy version 0x0303, the
    handshake types ServerHello = 0x02 and Finished = 0x14, and the alert
    description close_notify = 0x00. *)
Module protocol.
Definition change_cipher_spec : bytes := [x14].
Definition alert : bytes := [x15].
Definition handshake : bytes := [x16].
Definition application_data : bytes := [x17].
Definition TLS12 : bytes := [x03; x03].
Definition server_hello : bytes := [x02].
Definition finished : bytes := [x14].
Definition close_notify : bytes := [x00].
End protocol.

(** ** Exceptions *)

Inductive exn : Type :=
| AssertionError            (* a failed [assert] *)
| AttributeError            (* an attribute read before it was assigned *)
| AlertHandshakeFailure     (* [Exception("alert handshake failure")] *)
| TransportError            (* the transport has no further record *)
| CryptoError               (* [decrypt_and_verify] rejected the record *)
| DecodeError.              (* [parse_server_hello] rejected the message *)

Inductive result (A : Type) : Type :=
| Ok (a : A)
| Raise (e : exn).
Arguments Ok {A} a.
Arguments Raise {A} e.

Definition bind {A B : Type} (r : result A) (k : A -> result B) : result B :=
  match r with
  | Ok a => k a
  | Raise e => Raise e
  end.

Declare Scope result_scope.
Delimit Scope result_scope with result.
Notation "x <- c ;; k" := (bind c (fun x => k))
  (at level 61, c at next level, right associativity) : result_scope.
Notation "' p <- c ;; k" := (bind c (fun x => match x with p => k end))
  (at level 61, p pattern, c at next level, right associativity) : result_scope.
Local Open Scope result_scope.

Definition assert_ (t : bool) : result unit :=
  if t then Ok tt else Raise AssertionError.

(** Reading an attribute of an object: unset attributes raise. *)
Definition getattr {A : Type} (o : option A) : result A :=
  match o with
  | Some a => Ok a
  | None => Raise AttributeError
  end.

Definition is_ok {A : Type} (r : result A) : bool :=
  match r with Ok _ => true | Raise _ => false end.

(** ** The imported primitives

    The cryptographic modules and the message codec are not among the
    source files; the engine is embedded over an arbitrary implementation
    of them.  An AEAD object carries its own record sequence counter, so
    sealing and opening return the object's next state. *)
Class Primitives : Type := {
  (* utils *)
  hmac_sha256 : bytes -> bytes -> bytes;
  (* hashlib.sha256(...).digest() *)
  sha256 : bytes -> bytes;
  (* hkdf *)
  HKDF_expand_label : bytes -> bytes -> bytes -> Z -> bytes;
  derive_secret : bytes -> bytes -> bytes -> bytes;
  gen_key_and_iv : bytes -> bytes * bytes;
  transcript_hash : bytes -> bytes;
  (* x25519 *)
  base_point_mult : bytes -> bytes;
  multscalar : bytes -> bytes -> bytes;
  (* chacha20poly1305 *)
  aead : Type;
  ChaCha20Poly1305 : bytes -> bytes -> aead;
  encrypt_and_tag : aead -> bytes -> bytes -> bytes * aead;
  decrypt_and_verify : aead -> bytes -> bytes -> option (bytes * bytes * aead);
  (* protocol *)
  client_hello_message : bytes -> option bytes -> bytes;
  parse_server_hello : bytes -> option bytes;
  handshake_failure : bytes
}.

(** ** The transport

    Modelled from the spec: [protocol.read_content] is not among the source
    files; the spec has it read one record and return [(header, body)].
    The transport is the queue of records the peer has sent and the list of
    byte strings handed to [sock.send]; reading from an exhausted queue is
    a transport error. *)
Record socket : Type := mkSocket {
  inbox : list (bytes * bytes);
  outbox : list bytes
}.

Definition sock_send (s : socket) (data : bytes) : socket :=
  {| inbox := inbox s; outbox := outbox s ++ [data] |}.

Definition read_content (s : socket) : result (bytes * bytes * socket) :=
  match inbox s with
  | [] => Raise TransportError
  | r :: rest => Ok (r, {| inbox := rest; outbox := outbox s |})
  end.

Lemma Z_of_byte_nonneg (x : byte) : (0 <= Z_of_byte x)%Z.
Proof. unfold Z_of_byte. lia. Qed.

Lemma bytes_to_bint_acc_nonneg (s : bytes) (acc : Z) :
  (0 <= acc)%Z ->
  (0 <= fold_left (fun a x => (a * 256 + Z_of_byte x)%Z) s acc)%Z.
Proof.
  revert acc. induction s as [|x s IH]; intros acc Hacc; simpl.
  - exact Hacc.
  - apply IH. pose proof (Z_of_byte_nonneg x). lia.
Qed.

Lemma bytes_to_bint_nonneg (s : bytes) : (0 <= bytes_to_bint s)%Z.
Proof. apply bytes_to_bint_acc_nonneg. lia. Qed.

(** Taking a handshake message of declared length [ln >= 0] off a non-empty
    plaintext leaves a strictly shorter plaintext: the inner loop of
    [server_handshake] terminates. *)
Lemma slice_from_shorter (x : byte) (s : bytes) (ln : Z) :
  (0 <= ln)%Z ->
  length (slice_from (x :: s) (ln + 4)) < length (x :: s).
Proof.
  intros Hln. unfold slice_from, py_index.
  destruct (Z.ltb_spec (ln + 4) 0) as [Hneg|Hpos]; [lia|].
  rewrite length_skipn. simpl length. lia.
Qed.

Lemma read_content_shorter (sk sk' : socket) (r : bytes * bytes) :
  read_content sk = Ok (r, sk') -> length (inbox sk') < length (inbox sk).
Proof.
  unfold read_content. destruct (inbox sk) as [|r0 rest] eqn:E; [discriminate|].
  intros H. injection H as _ <-. simpl. lia.
Qed.

Definition inspect {A : Type} (a : A) : {b : A | a = b} := exist _ a eq_refl.

(** * The engine of [src/tinytls/__init__.py] *)

Module TinyTLS.
Section Engine.
Context {P : Primitives}.

(** ** [class TLSContext]

    Every attribute set outside [__init__] is optional until assigned.
    [assigned] is a ghost field: the names of the attributes in the order
    in which assignment statements wrote them (a mutation inside an AEAD
    object, its sequence counter, is not an assignment). *)
Record TLSContext : Type := mkTLSContext {
  client_private : bytes;
  client_public : bytes;
  messages : list bytes;
  shared_key : option bytes;
  early_secret : option bytes;
  handshake_secret : option bytes;
  client_hs_traffic_secret : option bytes;
  server_hs_traffic_secret : option bytes;
  client_traffic_crypto : option aead;
  server_traffic_crypto : option aead;
  master_secret : option bytes;
  client_app_traffic_secret : option bytes;
  server_app_traffic_secret : option bytes;
  client_app_data_crypto : option aead;
  server_app_data_crypto : option aead;
  assigned : list string
}.

(** [__init__]: [private] is the value drawn by [utils.urandom(32)]. *)
Definition TLSContext_init (private : bytes) : TLSContext :=
  {| client_private := private;
     client_public := base_point_mult private;
     messages := [];
     shared_key := None;
     early_secret := None;
     handshake_secret := None;
     client_hs_traffic_secret := None;
     server_hs_traffic_secret := None;
     client_traffic_crypto := None;
     server_traffic_crypto := None;
     master_secret := None;
     client_app_traffic_secret := None;
     server_app_traffic_secret := None;
     client_app_data_crypto := None;
     server_app_data_crypto := None;
     assigned := ["client_private"; "client_public"; "messages"]%string |}.

Definition get_messages (c : TLSContext) : bytes := concat (messages c).

Definition append_message (c : TLSContext) (message : bytes) : TLSContext :=
  {| client_private := client_private c;
     client_public := client_public c;
     messages := messages c ++ [message];
     shared_key := shared_key c;
     early_secret := early_secret c;
     handshake_secret := handshake_secret c;
     client_hs_traffic_secret := client_hs_traffic_secret c;
     server_hs_traffic_secret := server_hs_traffic_secret c;
     client_traffic_crypto := client_traffic_crypto c;
     server_traffic_crypto := server_traffic_crypto c;
     master_secret := master_secret c;
     client_app_traffic_secret := client_app_traffic_secret c;
     server_app_traffic_secret := server_app_traffic_secret c;
     client_app_data_crypto := client_app_data_crypto c;
     server_app_data_crypto := server_app_data_crypto c;
     assigned := assigned c |}.

Definition set_key_exchange (c : TLSContext) (server_public : bytes) : TLSContext :=
  {| client_private := client_private c;
     client_public := client_public c;
     messages := messages c;
     shared_key := Some (multscalar (client_private c) server_public);
     early_secret := early_secret c;
     handshake_secret := handshake_secret c;
     client_hs_traffic_secret := client_hs_traffic_secret c;
     server_hs_traffic_secret := server_hs_traffic_secret c;
     client_traffic_crypto := client_traffic_crypto c;
     server_traffic_crypto := server_traffic_crypto c;
     master_secret := master_secret c;
     client_app_traffic_secret := client_app_traffic_secret c;
     server_app_traffic_secret := server_app_traffic_secret c;
     client_app_data_crypto := client_app_data_crypto c;
     server_app_data_crypto := server_app_data_crypto c;
     assigned := assigned c ++ ["shared_key"%string] |}.

Definition key_schedule_in_handshake (c : TLSContext) : result TLSContext :=
  let messages_ := get_messages c in
  let psk := repeat x00 32 in
  let secret := psk in
  (* early secret *)
  let secret := hmac_sha256 secret psk in
  let early := secret in
  (* handshake secret *)
  let secret := derive_secret secret (lit "derived") [] in
  shared <- getattr (shared_key c) ;;
  let secret := hmac_sha256 secret shared in
  let client_hs := derive_secret secret (lit "c hs traffic") messages_ in
  let server_hs := derive_secret secret (lit "s hs traffic") messages_ in
  let '(client_write_key, client_write_iv) := gen_key_and_iv client_hs in
  let '(server_write_key, server_write_iv) := gen_key_and_iv server_hs in
  Ok {| client_private := client_private c;
        client_public := client_public c;
        messages := messages c;
        shared_key := shared_key c;
        early_secret := Some early;
        handshake_secret := Some secret;
        client_hs_traffic_secret := Some client_hs;
        server_hs_traffic_secret := Some server_hs;
        client_traffic_crypto :=
          Some (ChaCha20Poly1305 client_write_key client_write_iv);
        server_traffic_crypto :=
          Some (ChaCha20Poly1305 server_write_key server_write_iv);
        master_secret := master_secret c;
        client_app_traffic_secret := client_app_traffic_secret c;
        server_app_traffic_secret := server_app_traffic_secret c;
        client_app_data_crypto := client_app_data_crypto c;
        server_app_data_crypto := server_app_data_crypto c;
        assigned := assigned c ++
          ["early_secret"; "handshake_secret";
           "client_hs_traffic_secret"; "server_hs_traffic_secret";
           "client_traffic_crypto"; "server_traffic_crypto"]%string |}.

Definition key_schedule_in_app_data (c : TLSContext) : result TLSContext :=
  let messages_ := get_messages c in
  (* master secret *)
  let label := repeat x00 32 in
  secret <- getattr (handshake_secret c) ;;
  let secret := derive_secret secret (lit "derived") [] in
  let secret := hmac_sha256 secret label in
  let client_app := derive_secret secret (lit "c ap traffic") messages_ in
  let server_app := derive_secret secret (lit "s ap traffic") messages_ in
  let '(client_app_write_key, client_app_write_iv) := gen_key_and_iv client_app in
  let '(server_app_write_key, server_app_write_iv) := gen_key_and_iv server_app in
  Ok {| client_private := client_private c;
        client_public := client_public c;
        messages := messages c;
        shared_key := shared_key c;
        early_secret := early_secret c;
        handshake_secret := handshake_secret c;
        client_hs_traffic_secret := client_hs_traffic_secret c;
        server_hs_traffic_secret := server_hs_traffic_secret c;
        client_traffic_crypto := client_traffic_crypto c;
        server_traffic_crypto := server_traffic_crypto c;
        master_secret := Some secret;
        client_app_traffic_secret := Some client_app;
        server_app_traffic_secret := Some server_app;
        client_app_data_crypto :=
          Some (ChaCha20Poly1305 client_app_write_key client_app_write_iv);
        server_app_data_crypto :=
          Some (ChaCha20Poly1305 server_app_write_key server_app_write_iv);
        assigned := assigned c ++
          ["master_secret";
           "client_app_traffic_secret"; "server_app_traffic_secret";
           "client_app_data_crypto"; "server_app_data_crypto"]%string |}.

(** The AEAD objects are mutated in place by sealing and opening (their
    sequence counters advance); [with_cryptos] stores their new states
    without any attribute assignment. *)
Definition with_cryptos (c : TLSContext)
    (ctc stc cadc sadc : option aead) : TLSContext :=
  {| client_private := client_private c;
     client_public := client_public c;
     messages := messages c;
     shared_key := shared_key c;
     early_secret := early_secret c;
     handshake_secret := handshake_secret c;
     client_hs_traffic_secret := client_hs_traffic_secret c;
     server_hs_traffic_secret := server_hs_traffic_secret c;
     client_traffic_crypto := ctc;
     server_traffic_crypto := stc;
     master_secret := master_secret c;
     client_app_traffic_secret := client_app_traffic_secret c;
     server_app_traffic_secret := server_app_traffic_secret c;
     client_app_data_crypto := cadc;
     server_app_data_crypto := sadc;
     assigned := assigned c |}.

Definition mutate_client_traffic_crypto (c : TLSContext) (a : aead) :=
  with_cryptos c (Some a) (server_traffic_crypto c)
    (client_app_data_crypto c) (server_app_data_crypto c).

Definition mutate_server_traffic_crypto (c : TLSContext) (a : aead) :=
  with_cryptos c (client_traffic_crypto c) (Some a)
    (client_app_data_crypto c) (server_app_data_crypto c).

Definition mutate_client_app_data_crypto (c : TLSContext) (a : aead) :=
  with_cryptos c (client_traffic_crypto c) (server_traffic_crypto c)
    (Some a) (server_app_data_crypto c).

Definition mutate_server_app_data_crypto (c : TLSContext) (a : aead) :=
  with_cryptos c (client_traffic_crypto c) (server_traffic_crypto c)
    (client_app_data_crypto c) (Some a).

(** ** The handshake loop

    [server_handshake] has the same text in both [TLSSocket] classes but
    for the hash of the transcript ([hashlib.sha256(...).digest()] in
    [tinytls], [hkdf.transcript_hash] in [tinytls13]); it reads [self.sock]
    and reads and mutates [self.ctx] only.  The loop is embedded once, over
    the hash [digest] and the pair of the context and the transport. *)
Section Loop.
Variable digest : bytes -> bytes.

(** The body of the inner loop once [segment] has been cut off the
    plaintext: the Finished check, then the append.  [finished] is the
    loop flag. *)
Definition handshake_segment (c : TLSContext) (finished : bool)
    (segment : bytes) : result (TLSContext * bool) :=
  finished <-
    (if bytes_eqb (slice_to segment 1) protocol.finished then
       (* receive Finished *)
       let verify_data := slice_from segment 4 in
       _ <- assert_ (Nat.eqb (length verify_data) 32) ;;
       server_hs <- getattr (server_hs_traffic_secret c) ;;
       let finished_key := HKDF_expand_label server_hs (lit "finished") [] 32 in
       let expected_verify_data :=
         hmac_sha256 finished_key (digest (get_messages c)) in
       _ <- assert_ (bytes_eqb verify_data expected_verify_data) ;;
       Ok true
     else Ok finished) ;;
  Ok (append_message c segment, finished).

(** The inner loop [while plaindata: ...]. *)
Equations handshake_messages (c : TLSContext) (finished : bool)
    (plaindata : bytes) : result (TLSContext * bool)
    by wf (length plaindata) lt :=
handshake_messages c finished [] := Ok (c, finished);
handshake_messages c finished (x :: rest) :=
  let ln := bytes_to_bint (slice (x :: rest) 1 4) in
  let segment := slice_to (x :: rest) (ln + 4) in
  let plaindata := slice_from (x :: rest) (ln + 4) in
  r <- handshake_segment c finished segment ;;
  handshake_messages (fst r) (snd r) plaindata.
Next Obligation.
  apply slice_from_shorter, bytes_to_bint_nonneg.
Qed.

(** The outer loop [while not finished] reads one record per iteration, so
    it is defined by recursion on the number of records the transport
    still holds. *)
Equations server_handshake_loop (c : TLSContext) (sk : socket)
    : result (TLSContext * socket) by wf (length (inbox sk)) lt :=
server_handshake_loop c sk with inspect (read_content sk) := {
  | exist _ (Raise e) _ => Raise e
  | exist _ (Ok (hdr, message, sk')) Hread =>
    if bytes_eqb (slice_to hdr 1) protocol.change_cipher_spec then
      (* ignore change cipher spec *)
      server_handshake_loop c sk'
    else
      (* receive application_data *)
      _ <- assert_ (bytes_eqb (slice_to hdr 3)
                      (protocol.application_data ++ protocol.TLS12)) ;;
      crypto <- getattr (server_traffic_crypto c) ;;
      match decrypt_and_verify crypto message hdr with
      | None => Raise CryptoError
      | Some (plaindata, content_type, crypto') =>
        let c := mutate_server_traffic_crypto c crypto' in
        r <- handshake_messages c false plaindata ;;
        if snd r then Ok (fst r, sk')
        else server_handshake_loop (fst r) sk'
      end }.
Next Obligation. eapply read_content_shorter; eauto. Qed.
Next Obligation. eapply read_content_shorter; eauto. Qed.

End Loop.

(** ** [class TLSSocket] *)
Record TLSSocket : Type := mkTLSSocket {
  ctx : TLSContext;
  sock : socket;
  server_hostname : option bytes;
  read_buf : bytes
}.

Definition TLSSocket_init (c : TLSContext) (sk : socket)
    (hostname : option bytes) : TLSSocket :=
  {| ctx := c; sock := sk; server_hostname := hostname; read_buf := [] |}.

Definition with_ctx (s : TLSSocket) (c : TLSContext) : TLSSocket :=
  {| ctx := c; sock := sock s;
     server_hostname := server_hostname s; read_buf := read_buf s |}.

Definition with_sock (s : TLSSocket) (sk : socket) : TLSSocket :=
  {| ctx := ctx s; sock := sk;
     server_hostname := server_hostname s; read_buf := read_buf s |}.

Definition with_read_buf (s : TLSSocket) (buf : bytes) : TLSSocket :=
  {| ctx := ctx s; sock := sock s;
     server_hostname := server_hostname s; read_buf := buf |}.

Definition client_hello (s : TLSSocket) : result TLSSocket :=
  let message := client_hello_message (client_public (ctx s)) (server_hostname s) in
  let s := with_ctx s (append_message (ctx s) message) in
  let client_hello_handshake :=
    protocol.handshake ++ protocol.TLS12
      ++ bint_to_bytes (Z.of_nat (length message)) 2 ++ message in
  Ok (with_sock s (sock_send (sock s) client_hello_handshake)).

Definition server_hello (s : TLSSocket) : result TLSSocket :=
  '(hdr, message, sk) <- read_content (sock s) ;;
  let s := with_sock s sk in
  if bytes_eqb (slice_to hdr 3) (protocol.alert ++ protocol.TLS12)
     && bytes_eqb message (protocol.server_hello ++ handshake_failure)
  then Raise AlertHandshakeFailure
  else
    _ <- assert_ (bytes_eqb (slice_to hdr 3) (protocol.handshake ++ protocol.TLS12)) ;;
    _ <- assert_ (bytes_eqb (slice_to message 1) protocol.server_hello) ;;
    let c := append_message (ctx s) message in
    server_public <- match parse_server_hello message with
                     | Some k => Ok k
                     | None => Raise DecodeError
                     end ;;
    let c := set_key_exchange c server_public in
    c <- key_schedule_in_handshake c ;;
    Ok (with_ctx s c).

Definition server_handshake (s : TLSSocket) : result TLSSocket :=
  '(c, sk) <- server_handshake_loop sha256 (ctx s) (sock s) ;;
  Ok (with_sock (with_ctx s c) sk).

Definition key_schedule (s : TLSSocket) : result TLSSocket :=
  c <- key_schedule_in_app_data (ctx s) ;;
  Ok (with_ctx s c).

(** [_encrypted_app_data] returns the record and the sealing object's next
    state. *)
Definition _encrypted_app_data (data content_type : bytes) (encrypter : aead)
    : bytes * aead :=
  let data := data ++ content_type in
  let message_pad := data ++ pad16 (length data) in
  let tag_size := 16%Z in
  let aad := protocol.application_data ++ protocol.TLS12
               ++ bint_to_bytes (Z.of_nat (length message_pad) + tag_size) 2 in
  let '(encrypted, encrypter') := encrypt_and_tag encrypter message_pad aad in
  (protocol.application_data ++ protocol.TLS12
     ++ bint_to_bytes (Z.of_nat (length encrypted)) 2 ++ encrypted,
   encrypter').

Definition send_finished (s : TLSSocket) : result TLSSocket :=
  client_hs <- getattr (client_hs_traffic_secret (ctx s)) ;;
  let finished_key := HKDF_expand_label client_hs (lit "finished") [] 32 in
  let verify_data :=
    hmac_sha256 finished_key (sha256 (get_messages (ctx s))) in
  let finish_message :=
    protocol.finished ++ bint_to_bytes (Z.of_nat (length verify_data)) 3
      ++ verify_data in
  crypto <- getattr (client_traffic_crypto (ctx s)) ;;
  let '(record, crypto') :=
    _encrypted_app_data finish_message protocol.handshake crypto in
  let s := with_ctx s (mutate_client_traffic_crypto (ctx s) crypto') in
  Ok (with_sock s (sock_send (sock s) record)).

Definition send_alert (s : TLSSocket) : result TLSSocket :=
  let message := [x02] ++ protocol.close_notify in
  crypto <- getattr (client_app_data_crypto (ctx s)) ;;
  let '(record, crypto') :=
    _encrypted_app_data message protocol.alert crypto in
  let s := with_ctx s (mutate_client_app_data_crypto (ctx s) crypto') in
  Ok (with_sock s (sock_send (sock s) record)).

Definition send (s : TLSSocket) (data : bytes) : result TLSSocket :=
  crypto <- getattr (client_app_data_crypto (ctx s)) ;;
  let '(record, crypto') :=
    _encrypted_app_data data protocol.application_data crypto in
  let s := with_ctx s (mutate_client_app_data_crypto (ctx s) crypto') in
  Ok (with_sock s (sock_send (sock s) record)).

Definition recv (s : TLSSocket) (ln : Z) : result (bytes * TLSSocket) :=
  s <- (if negb (truthy (read_buf s)) then
          '(hdr, message, sk) <- read_content (sock s) ;;
          crypto <- getattr (server_app_data_crypto (ctx s)) ;;
          match decrypt_and_verify crypto message hdr with
          | None => Raise CryptoError
          | Some (plaindata, content_type, crypto') =>
            let s := with_sock s sk in
            let s := with_ctx s (mutate_server_app_data_crypto (ctx s) crypto') in
            Ok (with_read_buf s plaindata)
          end
        else Ok s) ;;
  let r := slice_to (read_buf s) ln in
  Ok (r, with_read_buf s (slice_from (read_buf s) ln)).

(** [__exit__] *)
Definition exit_ (s : TLSSocket) : result TLSSocket := send_alert s.

(** [TLSContext.wrap_socket] *)
Definition wrap_socket (c : TLSContext) (sk : socket)
    (hostname : option bytes) : result TLSSocket :=
  let tls_socket := TLSSocket_init c sk hostname in
  tls_socket <- client_hello tls_socket ;;
  tls_socket <- server_hello tls_socket ;;
  tls_socket <- server_handshake tls_socket ;;
  tls_socket <- send_finished tls_socket ;;
  tls_socket <- key_schedule tls_socket ;;
  Ok tls_socket.

(** [__enter__] *)
Definition enter_ (s : TLSSocket) : TLSSocket := s.

(** [create_default_context()]: [private] is the value that the new
    context draws from [utils.urandom(32)]. *)
Definition create_default_context (private : bytes) : TLSContext :=
  TLSContext_init private.

(** The module's [wrap_socket(sock, server_hostname)]. *)
Definition wrap_default_socket (private : bytes) (sk : socket)
    (hostname : option bytes) : result TLSSocket :=
  wrap_socket (create_default_context private) sk hostname.

End Engine.
End TinyTLS.

(** * The engine of [src/tinytls13/tlssocket.py] *)

Module TinyTLS13.
Section Engine.
Context {P : Primitives}.

(** Modelled from the spec: [tinytls13.tlscontext.TLSContext] is not among
    the source files; it is taken to be the context of [tinytls], created
    from the private key it is handed. *)
Definition TLSContext : Type := TinyTLS.TLSContext.
Definition TLSContext_init (private : bytes) : TLSContext :=
  TinyTLS.TLSContext_init private.

(** Modelled from the spec: [protocol.wrap_handshake],
    [protocol.wrap_encrypted] and [protocol.finish_message] are not among
    the source files; the spec frames a handshake record as
    [handshake(22) || 0x0303 || uint16(len)], an encrypted record as
    [application_data(23) || 0x0303 || uint16(len)], and a handshake
    message as [type || uint24(len) || content]. *)
Definition wrap_handshake (message : bytes) : bytes :=
  protocol.handshake ++ protocol.TLS12
    ++ bint_to_bytes (Z.of_nat (length message)) 2 ++ message.

Definition wrap_encrypted (encrypted : bytes) : bytes :=
  protocol.application_data ++ protocol.TLS12
    ++ bint_to_bytes (Z.of_nat (length encrypted)) 2 ++ encrypted.

Definition finish_message (verify_data : bytes) : bytes :=
  protocol.finished ++ bint_to_bytes (Z.of_nat (length verify_data)) 3
    ++ verify_data.

Record TLSSocket : Type := mkTLSSocket {
  sock : socket;
  client_private : bytes;
  client_public : bytes;
  ctx : TLSContext
}.

(** [__init__]: [private] is the value drawn by [utils.urandom(32)]. *)
Definition TLSSocket_init (sk : socket) (private : bytes) : TLSSocket :=
  {| sock := sk;
     client_private := private;
     client_public := base_point_mult private;
     ctx := TLSContext_init private |}.

Definition with_ctx (s : TLSSocket) (c : TLSContext) : TLSSocket :=
  {| sock := sock s; client_private := client_private s;
     client_public := client_public s; ctx := c |}.

Definition with_sock (s : TLSSocket) (sk : socket) : TLSSocket :=
  {| sock := sk; client_private := client_private s;
     client_public := client_public s; ctx := ctx s |}.

Definition client_hello (s : TLSSocket) : result TLSSocket :=
  let client_hello_message_ := client_hello_message (client_public s) None in
  let s := with_ctx s (TinyTLS.append_message (ctx s) client_hello_message_) in
  Ok (with_sock s (sock_send (sock s) (wrap_handshake client_hello_message_))).

Definition server_hello (s : TLSSocket) : result TLSSocket :=
  '(hdr, message, sk) <- read_content (sock s) ;;
  let s := with_sock s sk in
  _ <- assert_ (bytes_eqb (slice_to hdr 3) (protocol.handshake ++ protocol.TLS12)) ;;
  _ <- assert_ (bytes_eqb (slice_to message 1) protocol.server_hello) ;;
  let c := TinyTLS.append_message (ctx s) message in
  server_public <- match parse_server_hello message with
                   | Some k => Ok k
                   | None => Raise DecodeError
                   end ;;
  let c := TinyTLS.set_key_exchange c server_public in
  c <- TinyTLS.key_schedule_in_handshake c ;;
  Ok (with_ctx s c).

Definition server_handshake (s : TLSSocket) : result TLSSocket :=
  '(c, sk) <- TinyTLS.server_handshake_loop transcript_hash (ctx s) (sock s) ;;
  Ok (with_sock (with_ctx s c) sk).

Definition key_schedule (s : TLSSocket) : result TLSSocket :=
  c <- TinyTLS.key_schedule_in_app_data (ctx s) ;;
  Ok (with_ctx s c).

Definition send_finished (s : TLSSocket) : result TLSSocket :=
  client_hs <- getattr (TinyTLS.client_hs_traffic_secret (ctx s)) ;;
  let finished_key := HKDF_expand_label client_hs (lit "finished") [] 32 in
  let verify_data :=
    hmac_sha256 finished_key (transcript_hash (TinyTLS.get_messages (ctx s))) in
  let finished_content_type := finish_message verify_data ++ protocol.handshake in
  let message_pad :=
    finished_content_type ++ pad16 (length finished_content_type) in
  let tag_size := 16%Z in
  let aad := protocol.application_data ++ protocol.TLS12
               ++ bint_to_bytes (Z.of_nat (length message_pad) + tag_size) 2 in
  crypto <- getattr (TinyTLS.client_traffic_crypto (ctx s)) ;;
  let '(encrypted, crypto') := encrypt_and_tag crypto message_pad aad in
  let s := with_ctx s (TinyTLS.mutate_client_traffic_crypto (ctx s) crypto') in
  Ok (with_sock s (sock_send (sock s) (wrap_encrypted encrypted))).

Definition send_alert (s : TLSSocket) : result TLSSocket :=
  let message := [x02] ++ protocol.close_notify ++ protocol.alert in
  let message_pad := message ++ pad16 (length message) in
  let tag_size := 16%Z in
  let aad := protocol.application_data ++ protocol.TLS12
               ++ bint_to_bytes (Z.of_nat (length message_pad) + tag_size) 2 in
  crypto <- getattr (TinyTLS.client_app_data_crypto (ctx s)) ;;
  let '(encrypted, crypto') := encrypt_and_tag crypto message_pad aad in
  let s := with_ctx s (TinyTLS.mutate_client_app_data_crypto (ctx s) crypto') in
  Ok (with_sock s (sock_send (sock s) (wrap_encrypted encrypted))).

Definition send (s : TLSSocket) (data : bytes) : result TLSSocket :=
  let data_content_type := data ++ protocol.application_data in
  let message_pad := data_content_type ++ pad16 (length data_content_type) in
  let tag_size := 16%Z in
  let aad := protocol.application_data ++ protocol.TLS12
               ++ bint_to_bytes (Z.of_nat (length message_pad) + tag_size) 2 in
  crypto <- getattr (TinyTLS.client_app_data_crypto (ctx s)) ;;
  let '(encrypted, crypto') := encrypt_and_tag crypto message_pad aad in
  let s := with_ctx s (TinyTLS.mutate_client_app_data_crypto (ctx s) crypto') in
  Ok (with_sock s (sock_send (sock s) (wrap_encrypted encrypted))).

(** [recv(ln)]: the argument is not used. *)
Definition recv (s : TLSSocket) (ln : Z) : result (bytes * TLSSocket) :=
  '(hdr, message, sk) <- read_content (sock s) ;;
  crypto <- getattr (TinyTLS.server_app_data_crypto (ctx s)) ;;
  match decrypt_and_verify crypto message hdr with
  | None => Raise CryptoError
  | Some (plaindata, content_type, crypto') =>
    let s := with_sock s sk in
    let s := with_ctx s (TinyTLS.mutate_server_app_data_crypto (ctx s) crypto') in
    Ok (plaindata, s)
  end.

(** [__enter__] *)
Definition enter_ (s : TLSSocket) : TLSSocket := s.

(** [__exit__] *)
Definition exit_ (s : TLSSocket) : result TLSSocket := send_alert s.

End Engine.
End TinyTLS13.

(** * A reference instance of the primitives

    A small, executable stand-in for the cryptographic modules, used to
    run the engine on concrete handshakes.  It keeps the shapes of the
    real primitives (32-byte digests and MACs, a 16-byte tag, the inner
    plaintext [content || type || zeros]) and none of their security. *)

Module Toy.

(** [s] cut or zero-padded to exactly [n] bytes. *)
Definition fit (n : nat) (s : bytes) : bytes := firstn n (s ++ repeat x00 n).

(** A 32-byte checksum of [m]: a fold of the bytes of [m] with the
    multiplier 31, spread over 32 bytes. *)
Definition toy_sha256 (m : bytes) : bytes :=
  let acc := fold_left (fun acc x => ((acc * 31 + Z_of_byte x + 7) mod 65521)%Z)
               m (Z.of_nat (length m)) in
  map (fun i => byte_of_Z (acc * (2 * Z.of_nat i + 1) + Z.of_nat i)) (seq 0 32).
Definition toy_hmac (key m : bytes) : bytes :=
  toy_sha256 (key ++ toy_sha256 (key ++ m)).
Definition toy_expand_label (secret label context : bytes) (ln : Z) : bytes :=
  fit (Z.to_nat ln) (toy_hmac secret (label ++ context)).
Definition toy_derive_secret (secret label msgs : bytes) : bytes :=
  toy_expand_label secret label (toy_sha256 msgs) 32.

(** The AEAD object: key, base IV and record sequence counter. *)
Record toy_aead : Type := mkToyAead {
  toy_key : bytes;
  toy_iv : bytes;
  toy_seq : Z
}.

Definition toy_next (a : toy_aead) : toy_aead :=
  {| toy_key := toy_key a; toy_iv := toy_iv a; toy_seq := toy_seq a + 1 |}.

Definition toy_tag (a : toy_aead) (aad : bytes) : bytes :=
  fit 16 (bint_to_bytes (toy_seq a) 1 ++ aad ++ toy_key a).

Definition toy_seal (a : toy_aead) (plain aad : bytes) : bytes * toy_aead :=
  (plain ++ toy_tag a aad, toy_next a).

(** Drops the zero padding from the end of an inner plaintext. *)
Fixpoint strip_zeros_rev (r : bytes) : bytes :=
  match r with
  | x :: r' => if Byte.eqb x x00 then strip_zeros_rev r' else r
  | [] => []
  end.

Definition toy_open (a : toy_aead) (cipher aad : bytes)
    : option (bytes * bytes * toy_aead) :=
  let n := length cipher - 16 in
  if bytes_eqb (skipn n cipher) (toy_tag a aad) then
    match strip_zeros_rev (rev (firstn n cipher)) with
    | t :: content_rev => Some (rev content_rev, [t], toy_next a)
    | [] => None
    end
  else None.

#[export] Instance toy : Primitives := {|
  hmac_sha256 := toy_hmac;
  sha256 := toy_sha256;
  HKDF_expand_label := toy_expand_label;
  derive_secret := toy_derive_secret;
  gen_key_and_iv := fun secret =>
    (toy_expand_label secret (lit "key") [] 32,
     toy_expand_label secret (lit "iv") [] 12);
  transcript_hash := toy_sha256;
  base_point_mult := fun k => toy_sha256 k;
  multscalar := fun k u => toy_hmac k u;
  aead := toy_aead;
  ChaCha20Poly1305 := fun key iv => mkToyAead key iv 0;
  encrypt_and_tag := toy_seal;
  decrypt_and_verify := toy_open;
  client_hello_message := fun pub host =>
    let body := pub ++ match host with Some h => h | None => [] end in
    [x01] ++ bint_to_bytes (Z.of_nat (length body)) 3 ++ body;
  parse_server_hello := fun m =>
    if Nat.leb 36 (length m) then Some (firstn 32 (skipn 4 m)) else None;
  handshake_failure := [x28]
|}.

End Toy.

(** * Specification-level functions *)

(** The handshake messages of a decrypted plaintext, cut by type byte and
    [uint24] length as the inner loop of [server_handshake] cuts them. *)
Equations split_messages (plaindata : bytes) : list bytes
    by wf (length plaindata) lt :=
split_messages [] := [];
split_messages (x :: rest) :=
  slice_to (x :: rest) (bytes_to_bint (slice (x :: rest) 1 4) + 4)
    :: split_messages
         (slice_from (x :: rest) (bytes_to_bint (slice (x :: rest) 1 4) + 4)).
Next Obligation.
  apply slice_from_shorter, bytes_to_bint_nonneg.
Qed.

(** A handshake message of type Finished. *)
Definition is_finished (segment : bytes) : bool :=
  bytes_eqb (slice_to segment 1) protocol.finished.

(** A record of content type change_cipher_spec. *)
Definition is_ccs (record : bytes * bytes) : bool :=
  bytes_eqb (slice_to (fst record) 1) protocol.change_cipher_spec.

(** The plaintexts of the encrypted records of [records], in order, opened
    with the AEAD object [a]; ChangeCipherSpec records are left out. *)
Fixpoint open_records {P : Primitives} (a : aead)
    (records : list (bytes * bytes)) : list bytes :=
  match records with
  | [] => []
  | r :: rest =>
    if is_ccs r then open_records a rest
    else match decrypt_and_verify a (snd r) (fst r) with
         | Some (plaindata, _, a') => plaindata :: open_records a' rest
         | None => []
         end
  end.

(** The inner plaintext of the spec: content, content type, zero padding
    up to a multiple of 16 bytes. *)
Definition spec_inner_plaintext (content content_type : bytes) : bytes :=
  content ++ content_type
    ++ repeat x00 ((16 - (length content + length content_type) mod 16) mod 16).

(** The outer header of the spec for a ciphertext-and-tag of [n] bytes. *)
Definition spec_outer_header (n : nat) : bytes :=
  [x17; x03; x03] ++ bint_to_bytes (Z.of_nat n) 2.

(** [suffix] ends [s]. *)
Definition ends_with (s suffix : bytes) : bool :=
  bytes_eqb (skipn (length s - length suffix) s) suffix.

(** A handshake-message body: a type byte, a [uint24] length and exactly
    that many bytes of content. *)
Definition whole_message (m : bytes) : bool :=
  Nat.leb 4 (length m)
  && Z.eqb (Z.of_nat (length m)) (bytes_to_bint (slice m 1 4) + 4).

Section SpecFunctions.
Context {P : Primitives}.
Import TinyTLS.

(** The context [c] with its transcript replaced. *)
Definition set_messages (c : TLSContext) (ms : list bytes) : TLSContext :=
  {| client_private := client_private c;
     client_public := client_public c;
     messages := ms;
     shared_key := shared_key c;
     early_secret := early_secret c;
     handshake_secret := handshake_secret c;
     client_hs_traffic_secret := client_hs_traffic_secret c;
     server_hs_traffic_secret := server_hs_traffic_secret c;
     client_traffic_crypto := client_traffic_crypto c;
     server_traffic_crypto := server_traffic_crypto c;
     master_secret := master_secret c;
     client_app_traffic_secret := client_app_traffic_secret c;
     server_app_traffic_secret := server_app_traffic_secret c;
     client_app_data_crypto := client_app_data_crypto c;
     server_app_data_crypto := server_app_data_crypto c;
     assigned := assigned c |}.

(** The encrypted record of the spec for [content] of type
    [content_type], sealed by [e]: the AEAD plaintext is the inner
    plaintext, the additional data is the outer header announcing the
    plaintext length plus the 16-byte tag, and the record is the outer
    header for the sealed bytes followed by them. *)
Definition spec_encrypted_record (content content_type : bytes) (e : aead)
    : bytes * aead :=
  let inner := spec_inner_plaintext content content_type in
  let sealed := encrypt_and_tag e inner (spec_outer_header (length inner + 16)) in
  (spec_outer_header (length (fst sealed)) ++ fst sealed, snd sealed).

(** The Finished message of the spec for a handshake traffic secret and a
    transcript: [0x14 || uint24(len) || HMAC(finished_key, SHA-256(transcript))]. *)
Definition spec_verify_data (traffic_secret transcript : bytes) : bytes :=
  hmac_sha256 (HKDF_expand_label traffic_secret (lit "finished") [] 32)
    (sha256 transcript).

Definition spec_finished (traffic_secret transcript : bytes) : bytes :=
  let verify_data := spec_verify_data traffic_secret transcript in
  [x14] ++ bint_to_bytes (Z.of_nat (length verify_data)) 3 ++ verify_data.

(** The verify_data the server's Finished must carry when the transcript
    is the one of [c]. *)
Definition expected_verify_data (digest : bytes -> bytes) (c : TLSContext)
    (server_hs : bytes) : bytes :=
  hmac_sha256 (HKDF_expand_label server_hs (lit "finished") [] 32)
    (digest (get_messages c)).

(** A handshake message on the wire: type byte, [uint24] length, body. *)
Definition frame_message (m : byte * bytes) : bytes :=
  [fst m] ++ bint_to_bytes (Z.of_nat (length (snd m))) 3 ++ snd m.








End SpecFunctions.

(** * A scripted peer

    Concrete handshakes over the reference instance: the records a server
    would send to the client whose private key is [private]. *)

Module Script.
Import Toy TinyTLS.

Definition from_ok {A : Type} (default : A) (r : result A) : A :=
  match r with Ok a => a | Raise _ => default end.

Definition private : bytes := repeat x77 32.

Definition client_hello_body : bytes :=
  client_hello_message (base_point_mult private) None.

(** A ServerHello as the reference codec reads it: type, [uint24] length,
    the 32 bytes of the server's public key. *)
Definition server_hello_body : bytes :=
  [x02] ++ bint_to_bytes 32 3 ++ repeat x55 32.

(** A plaintext record: header and body. *)
Definition plain_record (content_type body : bytes) : bytes * bytes :=
  (content_type ++ protocol.TLS12 ++ bint_to_bytes (Z.of_nat (length body)) 2,
   body).

Definition sh_record : bytes * bytes :=
  plain_record protocol.handshake server_hello_body.

Definition ccs_record : bytes * bytes :=
  plain_record protocol.change_cipher_spec [x01].

(** The server's side of the record protection. *)
Definition server_seal (a : toy_aead) (content content_type : bytes)
    : (bytes * bytes) * toy_aead :=
  let inner := content ++ content_type in
  let padded := inner ++ pad16 (length inner) in
  let hdr := protocol.application_data ++ protocol.TLS12
               ++ bint_to_bytes (Z.of_nat (length padded) + 16) 2 in
  let '(sealed, a') := toy_seal a padded hdr in
  ((hdr, sealed), a').

(** The client's context once ServerHello is processed. *)
Definition ctx_server_hello : TLSContext :=
  let c := TLSContext_init private in
  let c := append_message c client_hello_body in
  let c := append_message c server_hello_body in
  let c := set_key_exchange c (repeat x55 32) in
  from_ok c (key_schedule_in_handshake c).

Definition server_hs_secret : bytes :=
  match server_hs_traffic_secret ctx_server_hello with
  | Some secret => secret
  | None => []
  end.

Definition server_hs_aead : toy_aead :=
  match server_traffic_crypto ctx_server_hello with
  | Some a => a
  | None => mkToyAead [] [] 0
  end.

Definition encrypted_extensions : bytes := [x08; x00; x00; x02; x00; x00].

(** The server's Finished over ClientHello, ServerHello and [prior]. *)
Definition server_finished (prior : bytes) : bytes :=
  spec_finished server_hs_secret
    (client_hello_body ++ server_hello_body ++ prior).

(** A message that may follow Finished: an empty NewSessionTicket. *)
Definition new_session_ticket : bytes := [x04; x00; x00; x00].

(** The server's flight in one record, after a ChangeCipherSpec. *)
Definition flight : bytes :=
  encrypted_extensions ++ server_finished encrypted_extensions.

Definition handshake_inbox : list (bytes * bytes) :=
  [sh_record; ccs_record; fst (server_seal server_hs_aead flight protocol.handshake)].

(** The same flight with a NewSessionTicket after Finished, in the record
    of the Finished. *)
Definition trailing_inbox : list (bytes * bytes) :=
  [sh_record; ccs_record;
   fst (server_seal server_hs_aead (flight ++ new_session_ticket) protocol.handshake)].

Definition default_socket : TLSSocket :=
  TLSSocket_init (TLSContext_init private) (mkSocket [] []) None.

(** The socket once ServerHello is processed. *)
Definition hello_done : TLSSocket :=
  from_ok default_socket
    (let s := TLSSocket_init (TLSContext_init private)
                (mkSocket handshake_inbox []) None in
     s <- client_hello s ;;
     server_hello s).

(** The socket once the server's flight is processed, before the client's
    Finished is sent. *)
Definition handshaken : TLSSocket :=
  from_ok default_socket (server_handshake hello_done).

Definition client_hs_secret : bytes :=
  match client_hs_traffic_secret ctx_server_hello with
  | Some secret => secret
  | None => []
  end.

(** The client's Finished over the transcript of [handshaken]. *)
Definition client_finished : bytes :=
  spec_finished client_hs_secret (get_messages (ctx handshaken)).

(** The socket once the client's Finished is sent. *)
Definition finished_sent : TLSSocket :=
  from_ok default_socket (send_finished handshaken).

(** The session established over [handshake_inbox]. *)
Definition established : TLSSocket :=
  from_ok default_socket
    (wrap_socket (TLSContext_init private) (mkSocket handshake_inbox []) None).

Definition server_app_aead : toy_aead :=
  match server_app_data_crypto (ctx established) with
  | Some a => a
  | None => mkToyAead [] [] 0
  end.

(** Application records of the server, each sealed as the first record
    of the application phase but the last, sealed as the second: the
    three bytes ["abc"], a record of empty content, and ["de"]. *)
Definition app_record_abc : bytes * bytes :=
  fst (server_seal server_app_aead (lit "abc") protocol.application_data).
Definition app_record_empty : bytes * bytes :=
  fst (server_seal server_app_aead [] protocol.application_data).
Definition app_record_de : bytes * bytes :=
  fst (server_seal (toy_next server_app_aead) (lit "de") protocol.application_data).

(** The established session with application records waiting. *)
Definition with_inbox (s : TLSSocket) (records : list (bytes * bytes)) : TLSSocket :=
  with_sock s (mkSocket records (outbox (sock s))).

Definition established_abc : TLSSocket :=
  with_inbox established [app_record_abc].

Definition established_empty : TLSSocket :=
  with_inbox established [app_record_empty; app_record_de].

(** The state of [established_abc] seen through the [TLSSocket] of
    [tinytls13]. *)
Definition established13_abc : TinyTLS13.TLSSocket :=
  TinyTLS13.mkTLSSocket (sock established_abc) private (base_point_mult private)
    (ctx established_abc).

(** The session established over [trailing_inbox]. *)
Definition trailing : TLSSocket :=
  from_ok default_socket
    (wrap_socket (TLSContext_init private) (mkSocket trailing_inbox []) None).

Definition trailing_master_secret : bytes :=
  match master_secret (ctx trailing) with
  | Some secret => secret
  | None => []
  end.

(** The context once EncryptedExtensions is appended. *)
Definition ctx_encrypted_extensions : TLSContext :=
  append_message ctx_server_hello encrypted_extensions.

(** An EncryptedExtensions that announces 16 bytes and brings one. *)
Definition truncated_extensions : bytes := [x08; x00; x00; x10; xaa].

(** A handshake whose EncryptedExtensions arrives truncated, alone in its
    record, followed by the server's Finished in the next record. *)
Definition truncated_inbox : list (bytes * bytes) :=
  [sh_record; ccs_record;
   fst (server_seal server_hs_aead truncated_extensions protocol.handshake);
   fst (server_seal (toy_next server_hs_aead)
          (server_finished truncated_extensions) protocol.handshake)].

Definition truncated_run : result TLSSocket :=
  wrap_socket (TLSContext_init private) (mkSocket truncated_inbox []) None.

(** What the inner loop of [server_handshake] left: the transcript and the
    loop flag, if it did not raise. *)
Definition outcome (r : result (TLSContext * bool)) : option (list bytes * bool) :=
  match r with
  | Ok (c, finished) => Some (messages c, finished)
  | Raise _ => None
  end.

(** What a call returned, if it did. *)
Definition returned {A : Type} (r : result (bytes * A)) : option bytes :=
  match r with
  | Ok (data, _) => Some data
  | Raise _ => None
  end.

(** The result of [recv(1)] on [established_abc], and the session after
    it. *)
Definition recv_1 : bytes * TLSSocket :=
  from_ok ([], default_socket) (recv established_abc 1).

Definition after_recv_1 : TLSSocket := snd recv_1.

(** The established session after [__exit__]. *)
Definition closed : TLSSocket := from_ok default_socket (exit_ established).

Definition client_app_aead : toy_aead :=
  match client_app_data_crypto (ctx established) with
  | Some a => a
  | None => mkToyAead [] [] 0
  end.

(** A handshake in which the server sends, under the handshake keys, a
    record of inner content type alert with the body [02 28] (fatal,
    handshake_failure), and then its Finished over the transcript that
    holds those two bytes. *)
Definition alert_in_flight : bytes * bytes :=
  fst (server_seal server_hs_aead [x02; x28] protocol.alert).

Definition alert_flight_inbox : list (bytes * bytes) :=
  [sh_record; ccs_record; alert_in_flight;
   fst (server_seal (toy_next server_hs_aead)
          (server_finished [x02; x28]) protocol.handshake)].

Definition alert_run : result TLSSocket :=
  wrap_socket (TLSContext_init private) (mkSocket alert_flight_inbox []) None.





End Script.

(** * Properties *)

(** ** Byte strings *)

Lemma bytes_eqb_eq (a b : bytes) : bytes_eqb a b = true <-> a = b.
Proof.
  revert b. induction a as [|x a IH]; intros [|y b]; simpl; split;
    try congruence; try reflexivity.
  - intros H. apply andb_true_iff in H as [Hx Hab].
    apply Byte.byte_dec_bl in Hx. apply IH in Hab. congruence.
  - intros H. injection H as -> ->. apply andb_true_iff. split.
    + now apply Byte.byte_dec_lb.
    + now apply IH.
Qed.

Lemma bytes_eqb_refl (a : bytes) : bytes_eqb a a = true.
Proof. now apply bytes_eqb_eq. Qed.

Lemma bytes_eqb_neq (a b : bytes) : bytes_eqb a b = false <-> a <> b.
Proof.
  split.
  - intros H E. apply bytes_eqb_eq in E. congruence.
  - intros H. destruct (bytes_eqb a b) eqn:E; [|reflexivity].
    apply bytes_eqb_eq in E. contradiction.
Qed.

Lemma slice_to_nonneg (s : bytes) (j : Z) :
  (0 <= j)%Z -> slice_to s j = firstn (Z.to_nat j) s.
Proof.
  intros H. unfold slice_to, py_index.
  destruct (Z.ltb_spec j 0); [lia|reflexivity].
Qed.

Lemma slice_from_nonneg (s : bytes) (i : Z) :
  (0 <= i)%Z -> slice_from s i = skipn (Z.to_nat i) s.
Proof.
  intros H. unfold slice_from, py_index.
  destruct (Z.ltb_spec i 0); [lia|reflexivity].
Qed.

(** A Python slice pair [s[:n], s[n:]] always recomposes [s]. *)
Lemma slice_to_from (s : bytes) (n : Z) : slice_to s n ++ slice_from s n = s.
Proof. unfold slice_to, slice_from. apply firstn_skipn. Qed.

Lemma slice_to_all (s : bytes) (n : Z) :
  (Z.of_nat (length s) <= n)%Z -> slice_to s n = s.
Proof.
  intros H. rewrite slice_to_nonneg by lia. apply firstn_all2. lia.
Qed.

Lemma slice_from_all (s : bytes) (n : Z) :
  (Z.of_nat (length s) <= n)%Z -> slice_from s n = [].
Proof.
  intros H. rewrite slice_from_nonneg by lia. apply skipn_all2. lia.
Qed.

Lemma slice_to_nil (n : Z) : slice_to [] n = [].
Proof. unfold slice_to. apply firstn_nil. Qed.

Lemma slice_from_nil (n : Z) : slice_from [] n = [].
Proof. unfold slice_from. apply skipn_nil. Qed.

Lemma slice_1_4 (x : byte) (s : bytes) : slice (x :: s) 1 4 = firstn 3 s.
Proof. reflexivity. Qed.

Lemma concat_split_messages (plaindata : bytes) :
  concat (split_messages plaindata) = plaindata.
Proof.
  funelim (split_messages plaindata); simp split_messages.
  - reflexivity.
  - simpl. rewrite H. apply slice_to_from.
Qed.

(** ** The handshake loop *)

Section LoopProperties.
Context {P : Primitives}.
Variable digest : bytes -> bytes.
Import TinyTLS.

Lemma set_messages_same (c : TLSContext) : set_messages c (messages c) = c.
Proof. destruct c; reflexivity. Qed.

Lemma append_message_set (c : TLSContext) (m : bytes) :
  append_message c m = set_messages c (messages c ++ [m]).
Proof. reflexivity. Qed.

Lemma fold_append_message (segs : list bytes) (c : TLSContext) :
  fold_left append_message segs c = set_messages c (messages c ++ segs).
Proof.
  revert c. induction segs as [|m segs IH]; intros c; simpl.
  - rewrite app_nil_r. symmetry. apply set_messages_same.
  - rewrite IH. unfold set_messages, append_message; simpl.
    rewrite <- app_assoc. reflexivity.
Qed.

Lemma handshake_messages_cons (c : TLSContext) (f : bool) (x : byte) (rest : bytes) :
  handshake_messages digest c f (x :: rest) =
  (r <- handshake_segment digest c f
          (slice_to (x :: rest) (bytes_to_bint (slice (x :: rest) 1 4) + 4)) ;;
   handshake_messages digest (fst r) (snd r)
     (slice_from (x :: rest) (bytes_to_bint (slice (x :: rest) 1 4) + 4))).
Proof. rewrite handshake_messages_equation_2. reflexivity. Qed.

(** A segment that passes the loop body is appended as it is, and the loop
    flag is raised exactly by a Finished. *)
Lemma handshake_segment_ok (c c' : TLSContext) (f f' : bool) (segment : bytes) :
  handshake_segment digest c f segment = Ok (c', f') ->
  c' = append_message c segment /\ f' = (is_finished segment || f).
Proof.
  unfold handshake_segment, is_finished.
  destruct (bytes_eqb (slice_to segment 1) protocol.finished); simpl.
  - destruct (assert_ (length (slice_from segment 4) =? 32)); simpl; [|discriminate].
    destruct (getattr (server_hs_traffic_secret c)); simpl; [|discriminate].
    destruct (assert_ _); simpl; [|discriminate].
    intros H. injection H as <- <-. auto.
  - intros H. injection H as <- <-. auto.
Qed.

(** The inner loop appends the messages of the plaintext, each as cut, and
    changes nothing else of the context. *)
Lemma handshake_messages_ok (plaindata : bytes) :
  forall (c c' : TLSContext) (f f' : bool),
  handshake_messages digest c f plaindata = Ok (c', f') ->
  c' = fold_left append_message (split_messages plaindata) c /\
  f' = (existsb is_finished (split_messages plaindata) || f).
Proof.
  funelim (split_messages plaindata); intros c c' f f'.
  - rewrite handshake_messages_equation_1. simp split_messages.
    intros E. injection E as <- <-. auto.
  - rewrite handshake_messages_cons. simp split_messages.
    destruct (handshake_segment digest c f _) as [[c1 f1]|e] eqn:Eseg;
      simpl; [|discriminate].
    intros Hrest. apply handshake_segment_ok in Eseg as [-> ->].
    apply H in Hrest as [-> ->]. split; [reflexivity|].
    now rewrite orb_assoc, (orb_comm (existsb _ _)).
Qed.

Lemma server_handshake_loop_nil (c : TLSContext) (out : list bytes) :
  server_handshake_loop digest c (mkSocket [] out) = Raise TransportError.
Proof. rewrite server_handshake_loop_equation_1. reflexivity. Qed.

Lemma server_handshake_loop_cons (c : TLSContext) (hdr message : bytes)
    (rest : list (bytes * bytes)) (out : list bytes) :
  server_handshake_loop digest c (mkSocket ((hdr, message) :: rest) out) =
  if bytes_eqb (slice_to hdr 1) protocol.change_cipher_spec then
    server_handshake_loop digest c (mkSocket rest out)
  else
    _ <- assert_ (bytes_eqb (slice_to hdr 3)
                    (protocol.application_data ++ protocol.TLS12)) ;;
    crypto <- getattr (server_traffic_crypto c) ;;
    match decrypt_and_verify crypto message hdr with
    | None => Raise CryptoError
    | Some (plaindata, content_type, crypto') =>
      let c := mutate_server_traffic_crypto c crypto' in
      r <- handshake_messages digest c false plaindata ;;
      if snd r then Ok (fst r, mkSocket rest out)
      else server_handshake_loop digest (fst r) (mkSocket rest out)
    end.
Proof. rewrite server_handshake_loop_equation_1. reflexivity. Qed.

(** What a successful run of the loop has done: it consumed a prefix of
    the transport's records, opened those that are not ChangeCipherSpec,
    and appended the messages of their plaintexts; the last plaintext is
    the first that holds a Finished.  Apart from the transcript and the
    state of the opening AEAD object, the context is unchanged. *)
Lemma server_handshake_loop_ok (records : list (bytes * bytes)) :
  forall (c c' : TLSContext) (out : list bytes) (sk' : socket) (a : aead),
  server_handshake_loop digest c (mkSocket records out) = Ok (c', sk') ->
  server_traffic_crypto c = Some a ->
  exists consumed earlier last a',
    records = consumed ++ inbox sk' /\ outbox sk' = out /\
    open_records a consumed = earlier ++ [last] /\
    Forall (fun pd => existsb is_finished (split_messages pd) = false) earlier /\
    existsb is_finished (split_messages last) = true /\
    c' = set_messages (mutate_server_traffic_crypto c a')
           (messages c ++ flat_map split_messages (earlier ++ [last])).
Proof.
  induction records as [|[hdr message] rest IH]; intros c c' out sk' a Hrun Ha.
  - rewrite server_handshake_loop_nil in Hrun. discriminate.
  - rewrite server_handshake_loop_cons in Hrun.
    destruct (bytes_eqb (slice_to hdr 1) protocol.change_cipher_spec) eqn:Eccs.
    + destruct (IH _ _ _ _ _ Hrun Ha)
        as (consumed & earlier & last & a' & -> & Hout & Hopen & Hearly & Hlast & ->).
      exists ((hdr, message) :: consumed), earlier, last, a'.
      repeat split; auto.
      simpl. unfold is_ccs. simpl. rewrite Eccs. exact Hopen.
    + destruct (assert_ _); simpl in Hrun; [|discriminate].
      rewrite Ha in Hrun. simpl in Hrun.
      destruct (decrypt_and_verify a message hdr) as [[[pd ct] a1]|] eqn:Edec;
        [|discriminate].
      destruct (handshake_messages digest _ false pd) as [[c2 f2]|e] eqn:Einner;
        simpl in Hrun; [|discriminate].
      apply handshake_messages_ok in Einner as [-> ->].
      rewrite orb_false_r in Hrun.
      destruct (existsb is_finished (split_messages pd)) eqn:Efin.
      * injection Hrun as <- <-.
        exists [(hdr, message)], [], pd, a1. simpl.
        unfold is_ccs. simpl. rewrite Eccs, Edec.
        repeat split; auto.
        rewrite fold_append_message, app_nil_r. reflexivity.
      * rewrite fold_append_message in Hrun.
        eapply IH in Hrun; [|reflexivity].
        destruct Hrun
          as (consumed & earlier & last & a' & -> & Hout & Hopen & Hearly & Hlast & ->).
        exists ((hdr, message) :: consumed), (pd :: earlier), last, a'.
        simpl. unfold is_ccs. simpl. rewrite Eccs, Edec, Hopen.
        repeat split; auto.
        unfold set_messages, mutate_server_traffic_crypto, with_cryptos; simpl.
        rewrite <- app_assoc. reflexivity.
Qed.

End LoopProperties.

(** ** Integer encodings *)

Lemma Z_of_byte_of_Z (z : Z) : Z_of_byte (byte_of_Z z) = (z mod 256)%Z.
Proof.
  unfold Z_of_byte, byte_of_Z.
  assert (Hb : (0 <= z mod 256 < 256)%Z) by (apply Z.mod_pos_bound; lia).
  destruct (Byte.of_N (Z.to_N (z mod 256))) as [x|] eqn:E.
  - apply Byte.to_of_N in E. rewrite E. lia.
  - apply Byte.of_N_None_iff in E. lia.
Qed.

Lemma bytes_to_bint_snoc (s : bytes) (x : byte) :
  bytes_to_bint (s ++ [x]) = (bytes_to_bint s * 256 + Z_of_byte x)%Z.
Proof. unfold bytes_to_bint. rewrite fold_left_app. reflexivity. Qed.

Lemma length_bint_to_bytes (v : Z) (ln : nat) : length (bint_to_bytes v ln) = ln.
Proof.
  revert v. induction ln as [|k IH]; intros v; simpl; [reflexivity|].
  rewrite length_app, IH. simpl. lia.
Qed.

(** [bint_to_bytes] and [bytes_to_bint] are the big-endian encoding and
    decoding of unsigned integers: decoding gives back the value modulo
    [256 ^ ln]. *)
Lemma bytes_to_bint_to_bytes (ln : nat) (v : Z) :
  bytes_to_bint (bint_to_bytes v ln) = (v mod 256 ^ Z.of_nat ln)%Z.
Proof.
  revert v. induction ln as [|k IH]; intros v.
  - simpl. now rewrite Z.mod_1_r.
  - cbn [bint_to_bytes]. rewrite bytes_to_bint_snoc, IH, Z_of_byte_of_Z.
    rewrite Nat2Z.inj_succ, Z.pow_succ_r by lia.
    rewrite Z.rem_mul_r by lia. rewrite Z.mod_mod by lia. ring.
Qed.

(** ** Encrypted records *)

Section RecordProperties.
Context {P : Primitives}.
Import TinyTLS.

Lemma length_pad16 (n : nat) : length (pad16 n) = (16 - n mod 16) mod 16.
Proof. apply repeat_length. Qed.

(** The padding is the shortest that reaches a multiple of 16. *)
Lemma pad16_aligned (n : nat) :
  (n + length (pad16 n)) mod 16 = 0 /\ length (pad16 n) < 16.
Proof.
  rewrite length_pad16. split.
  - pose proof (Nat.mod_upper_bound n 16 ltac:(lia)) as Hlt.
    pose proof (Nat.div_mod_eq n 16) as Hn.
    destruct (Nat.eq_dec (n mod 16) 0) as [E|E].
    + rewrite E. change ((16 - 0) mod 16) with 0.
      rewrite Nat.add_0_r. exact E.
    + rewrite (Nat.mod_small (16 - n mod 16)) by lia.
      replace (n + (16 - n mod 16)) with ((n / 16 + 1) * 16) by lia.
      apply Nat.Div0.mod_mul.
  - apply Nat.mod_upper_bound. lia.
Qed.

Lemma spec_inner_plaintext_eq (content content_type : bytes) :
  spec_inner_plaintext content content_type =
  (content ++ content_type) ++ pad16 (length (content ++ content_type)).
Proof.
  unfold spec_inner_plaintext, pad16.
  now rewrite length_app, <- app_assoc.
Qed.

Lemma spec_inner_plaintext_aligned (content content_type : bytes) :
  length (spec_inner_plaintext content content_type) mod 16 = 0.
Proof.
  rewrite spec_inner_plaintext_eq, length_app. apply pad16_aligned.
Qed.

Lemma inner_padding_length (content content_type : bytes) :
  length (spec_inner_plaintext content content_type)
    - length (content ++ content_type)
  = length (pad16 (length (content ++ content_type))).
Proof. rewrite spec_inner_plaintext_eq, length_app. lia. Qed.

Lemma length_spec_outer_header (n : nat) : length (spec_outer_header n) = 5.
Proof.
  unfold spec_outer_header. rewrite length_app, length_bint_to_bytes.
  reflexivity.
Qed.

(** [_encrypted_app_data] builds the record of the spec whenever sealing
    these bytes adds the 16 bytes of the tag. *)
Lemma encrypted_app_data_spec (data content_type : bytes) (e : aead) :
  (forall m aad, length (fst (encrypt_and_tag e m aad)) = length m + 16) ->
  _encrypted_app_data data content_type e =
  spec_encrypted_record data content_type e.
Proof.
  intros Htag. unfold _encrypted_app_data, spec_encrypted_record.
  rewrite <- spec_inner_plaintext_eq.
  set (inner := spec_inner_plaintext data content_type).
  replace (protocol.application_data ++ protocol.TLS12
             ++ bint_to_bytes (Z.of_nat (length inner) + 16) 2)
    with (spec_outer_header (length inner + 16)).
  2:{ unfold spec_outer_header. rewrite Nat2Z.inj_add. reflexivity. }
  destruct (encrypt_and_tag e inner (spec_outer_header (length inner + 16)))
    as [encrypted e'] eqn:E.
  reflexivity.
Qed.

Lemma send_sends (s s' : TLSSocket) (data : bytes) :
  send s data = Ok s' ->
  exists a, client_app_data_crypto (ctx s) = Some a /\
    outbox (sock s') = outbox (sock s)
      ++ [fst (_encrypted_app_data data protocol.application_data a)] /\
    inbox (sock s') = inbox (sock s) /\
    ctx s' = mutate_client_app_data_crypto (ctx s)
               (snd (_encrypted_app_data data protocol.application_data a)) /\
    read_buf s' = read_buf s.
Proof.
  unfold send. destruct (client_app_data_crypto (ctx s)) as [a|]; simpl; [|discriminate].
  destruct (_encrypted_app_data data protocol.application_data a)
    as [record a'] eqn:E.
  intros H. injection H as <-. exists a. rewrite E. simpl. repeat split.
Qed.

Lemma send_alert_sends (s s' : TLSSocket) :
  send_alert s = Ok s' ->
  exists a, client_app_data_crypto (ctx s) = Some a /\
    outbox (sock s') = outbox (sock s)
      ++ [fst (_encrypted_app_data ([x02] ++ protocol.close_notify) protocol.alert a)] /\
    inbox (sock s') = inbox (sock s) /\
    ctx s' = mutate_client_app_data_crypto (ctx s)
               (snd (_encrypted_app_data ([x02] ++ protocol.close_notify)
                       protocol.alert a)) /\
    read_buf s' = read_buf s.
Proof.
  unfold send_alert.
  destruct (client_app_data_crypto (ctx s)) as [a|]; simpl; [|discriminate].
  destruct (_encrypted_app_data _ protocol.alert a) as [record a'] eqn:E.
  intros H. injection H as <-. exists a. rewrite E. simpl. repeat split.
Qed.

Lemma send_finished_sends (s s' : TLSSocket) :
  send_finished s = Ok s' ->
  exists secret a,
    client_hs_traffic_secret (ctx s) = Some secret /\
    client_traffic_crypto (ctx s) = Some a /\
    outbox (sock s') = outbox (sock s)
      ++ [fst (_encrypted_app_data
                 (spec_finished secret (get_messages (ctx s)))
                 protocol.handshake a)] /\
    inbox (sock s') = inbox (sock s) /\
    ctx s' = mutate_client_traffic_crypto (ctx s)
               (snd (_encrypted_app_data
                       (spec_finished secret (get_messages (ctx s)))
                       protocol.handshake a)) /\
    read_buf s' = read_buf s.
Proof.
  unfold send_finished.
  destruct (client_hs_traffic_secret (ctx s)) as [secret|];
    cbn [bind getattr]; [|discriminate].
  destruct (client_traffic_crypto (ctx s)) as [a|];
    cbn [bind getattr]; [|discriminate].
  change (protocol.finished ++
          bint_to_bytes (Z.of_nat (length (hmac_sha256
            (HKDF_expand_label secret (lit "finished") [] 32)
            (sha256 (get_messages (ctx s)))))) 3 ++
          hmac_sha256 (HKDF_expand_label secret (lit "finished") [] 32)
            (sha256 (get_messages (ctx s))))
    with (spec_finished secret (get_messages (ctx s))).
  destruct (_encrypted_app_data _ protocol.handshake a) as [record a'] eqn:E.
  intros H. injection H as <-. exists secret, a. rewrite E.
  cbn [fst snd with_sock with_ctx sock ctx read_buf sock_send inbox outbox].
  repeat split.
Qed.

End RecordProperties.

(** ** The reference instance *)

Lemma length_fit (n : nat) (s : bytes) : length (Toy.fit n s) = n.
Proof.
  unfold Toy.fit. rewrite length_firstn, length_app, repeat_length. lia.
Qed.

(** Sealing with the reference AEAD adds a 16-byte tag. *)
Lemma toy_seal_length (a : Toy.toy_aead) (m aad : bytes) :
  length (fst (Toy.toy_seal a m aad)) = length m + 16.
Proof.
  unfold Toy.toy_seal, Toy.toy_tag. simpl fst.
  now rewrite length_app, length_fit.
Qed.

(** ** Claims on the encrypted records *)

Section RecordClaims.
Context {P : Primitives}.
Import TinyTLS.

(** C4: every encrypted record the client sends (Finished, application
    data, alert) is the record of the spec: the AEAD plaintext is the
    content, then the content-type byte, then zero padding up to the next
    multiple of 16 bytes; the additional data is the 5-byte outer header;
    and the outer header is [23 || 0x0303 || uint16] of the length of the
    ciphertext with its tag.  The AEAD is assumed to add a 16-byte tag. *)
Theorem C4_encrypted_record_shape :
  (forall a m aad, length (fst (encrypt_and_tag a m aad)) = length m + 16) ->
  (forall data content_type e,
     let inner := spec_inner_plaintext data content_type in
     let aad := spec_outer_header (length inner + 16) in
     let sealed := fst (encrypt_and_tag e inner aad) in
     fst (_encrypted_app_data data content_type e)
       = spec_outer_header (length sealed) ++ sealed /\
     inner = data ++ content_type
               ++ repeat x00 (length inner - length (data ++ content_type)) /\
     length inner - length (data ++ content_type) < 16 /\
     length inner mod 16 = 0 /\
     aad = spec_outer_header (length sealed) /\
     length aad = 5) /\
  (forall s s', send_finished s = Ok s' ->
     exists secret a,
       client_hs_traffic_secret (ctx s) = Some secret /\
       client_traffic_crypto (ctx s) = Some a /\
       outbox (sock s') = outbox (sock s)
         ++ [fst (spec_encrypted_record
                    (spec_finished secret (get_messages (ctx s))) [x16] a)]) /\
  (forall s data s', send s data = Ok s' ->
     exists a,
       client_app_data_crypto (ctx s) = Some a /\
       outbox (sock s') = outbox (sock s)
         ++ [fst (spec_encrypted_record data [x17] a)]) /\
  (forall s s', send_alert s = Ok s' ->
     exists a,
       client_app_data_crypto (ctx s) = Some a /\
       outbox (sock s') = outbox (sock s)
         ++ [fst (spec_encrypted_record [x02; x00] [x15] a)]).
Proof.
  intros Htag.
  assert (Hspec : forall data content_type e,
            _encrypted_app_data data content_type e
            = spec_encrypted_record data content_type e)
    by (intros; apply encrypted_app_data_spec; intros; apply Htag).
  split; [|split; [|split]].
  - intros data content_type e. cbv zeta.
    split; [|split; [|split; [|split; [|split]]]].
    + rewrite Hspec. reflexivity.
    + rewrite inner_padding_length, length_pad16, length_app. reflexivity.
    + rewrite inner_padding_length. apply pad16_aligned.
    + apply spec_inner_plaintext_aligned.
    + now rewrite Htag.
    + apply length_spec_outer_header.
  - intros s s' H. apply send_finished_sends in H
      as (secret & a & Hs & Ha & Hout & _).
    exists secret, a. rewrite <- Hspec. auto.
  - intros s data s' H. apply send_sends in H as (a & Ha & Hout & _).
    exists a. rewrite <- Hspec. auto.
  - intros s s' H. apply send_alert_sends in H as (a & Ha & Hout & _).
    exists a. rewrite <- Hspec. auto.
Qed.

(** C3, as the code has it: [send_finished] leaves the transcript as it
    found it; the client's Finished, computed over that transcript, goes
    out in a handshake-protected record and is not appended. *)
Theorem C3_send_finished_keeps_transcript (s s' : TLSSocket) :
  send_finished s = Ok s' ->
  messages (ctx s') = messages (ctx s) /\
  exists secret a,
    client_hs_traffic_secret (ctx s) = Some secret /\
    client_traffic_crypto (ctx s) = Some a /\
    outbox (sock s') = outbox (sock s)
      ++ [fst (_encrypted_app_data
                 (spec_finished secret (get_messages (ctx s)))
                 protocol.handshake a)].
Proof.
  intros H. apply send_finished_sends in H
    as (secret & a & Hs & Ha & Hout & _ & Hctx & _).
  split.
  - rewrite Hctx. reflexivity.
  - exists secret, a. auto.
Qed.

(** C6, as the code has it: closing sends the two-byte alert [0x02 0x00]
    (level byte 2, description close_notify) with content type alert in
    an application-data record sealed by the client-to-server application
    AEAD, whose state advances. *)
Theorem C6_close_notify_alert (s s' : TLSSocket) :
  exit_ s = Ok s' ->
  exists a,
    client_app_data_crypto (ctx s) = Some a /\
    let sealed := _encrypted_app_data [x02; x00] [x15] a in
    outbox (sock s') = outbox (sock s) ++ [fst sealed] /\
    firstn 3 (fst sealed) = [x17; x03; x03] /\
    client_app_data_crypto (ctx s') = Some (snd sealed) /\
    client_traffic_crypto (ctx s') = client_traffic_crypto (ctx s).
Proof.
  unfold exit_. intros H.
  apply send_alert_sends in H as (a & Ha & Hout & _ & Hctx & _).
  exists a. split; [exact Ha|]. cbv zeta. repeat split.
  - exact Hout.
  - unfold _encrypted_app_data.
    destruct (encrypt_and_tag a _ _) as [encrypted a']. reflexivity.
  - rewrite Hctx. reflexivity.
  - rewrite Hctx. reflexivity.
Qed.

End RecordClaims.

(** ** Claims on the handshake loop *)

Section LoopClaims.
Context {P : Primitives}.
Import TinyTLS.

(** The loop body on a Finished: accepted exactly when its verify_data has
    32 bytes and equals the expected value over the transcript so far. *)
Lemma handshake_segment_finished (digest : bytes -> bytes) (c : TLSContext)
    (f : bool) (segment server_hs : bytes) :
  is_finished segment = true ->
  server_hs_traffic_secret c = Some server_hs ->
  handshake_segment digest c f segment =
  if Nat.eqb (length (slice_from segment 4)) 32
     && bytes_eqb (slice_from segment 4) (expected_verify_data digest c server_hs)
  then Ok (append_message c segment, true)
  else Raise AssertionError.
Proof.
  unfold is_finished, handshake_segment, expected_verify_data.
  intros -> ->.
  destruct (Nat.eqb (length (slice_from segment 4)) 32); simpl; [|reflexivity].
  destruct (bytes_eqb _ _); reflexivity.
Qed.

(** A whole message at the head of a plaintext is the segment the loop
    cuts: type byte, [uint24] length, then that many bytes. *)
Lemma cut_whole_message (t : byte) (body rest : bytes) :
  (Z.of_nat (length body) < 256 ^ 3)%Z ->
  let message := [t] ++ bint_to_bytes (Z.of_nat (length body)) 3 ++ body in
  let ln := bytes_to_bint (slice (message ++ rest) 1 4) in
  slice_to (message ++ rest) (ln + 4) = message /\
  slice_from (message ++ rest) (ln + 4) = rest.
Proof.
  intros Hlen message ln.
  assert (Hln : ln = Z.of_nat (length body)).
  { subst ln message. cbn [app]. rewrite slice_1_4, <- app_assoc.
    rewrite firstn_app, length_bint_to_bytes, Nat.sub_diag.
    rewrite firstn_all2 by (rewrite length_bint_to_bytes; lia).
    cbn [firstn]. rewrite app_nil_r.
    rewrite bytes_to_bint_to_bytes. apply Z.mod_small. lia. }
  assert (Hm : length message = Z.to_nat (ln + 4)).
  { subst message. cbn [app length]. rewrite length_app, length_bint_to_bytes. lia. }
  rewrite slice_to_nonneg, slice_from_nonneg by lia.
  rewrite <- Hm. split.
  - rewrite firstn_app, Nat.sub_diag, firstn_all. cbn [firstn]. apply app_nil_r.
  - rewrite skipn_app, Nat.sub_diag, skipn_all. reflexivity.
Qed.

(** The loop on a plaintext that starts with a whole Finished carrying a
    32-byte verify_data [vd]: the Finished is appended and the flag raised
    when [vd] is the expected value over the transcript so far, and the
    handshake fails with an assertion error otherwise. *)
Lemma finished_verification (digest : bytes -> bytes) (c : TLSContext)
    (f : bool) (vd rest server_hs : bytes) :
  length vd = 32 ->
  server_hs_traffic_secret c = Some server_hs ->
  let expected := expected_verify_data digest c server_hs in
  let segment := [x14] ++ bint_to_bytes 32 3 ++ vd in
  (vd = expected ->
   handshake_messages digest c f (segment ++ rest)
   = handshake_messages digest (append_message c segment) true rest) /\
  (vd <> expected ->
   handshake_messages digest c f (segment ++ rest) = Raise AssertionError) /\
  (is_ok (handshake_segment digest c f segment) = true <-> vd = expected).
Proof.
  intros Hlen Hsecret expected segment.
  assert (Hcut := @cut_whole_message x14 vd rest).
  rewrite Hlen in Hcut. specialize (Hcut ltac:(lia)).
  change (Z.of_nat 32) with 32%Z in Hcut. cbv zeta in Hcut.
  fold segment in Hcut. destruct Hcut as [Hto Hfrom].
  assert (Hvd : slice_from segment 4 = vd) by reflexivity.
  assert (Hseg : handshake_segment digest c f segment =
                 if bytes_eqb vd expected
                 then Ok (append_message c segment, true)
                 else Raise AssertionError).
  { rewrite (@handshake_segment_finished digest c f segment server_hs);
      [|reflexivity|exact Hsecret].
    rewrite Hvd, Hlen. reflexivity. }
  assert (Hloop : handshake_messages digest c f (segment ++ rest) =
                  (r <- handshake_segment digest c f segment ;;
                   handshake_messages digest (fst r) (snd r) rest)).
  { change (segment ++ rest) with (x14 :: (bint_to_bytes 32 3 ++ vd) ++ rest).
    rewrite handshake_messages_cons.
    change (x14 :: (bint_to_bytes 32 3 ++ vd) ++ rest) with (segment ++ rest).
    rewrite Hto, Hfrom. reflexivity. }
  split; [|split].
  - intros E. rewrite Hloop, Hseg.
    apply bytes_eqb_eq in E. rewrite E. reflexivity.
  - intros E. rewrite Hloop, Hseg.
    apply bytes_eqb_neq in E. rewrite E. reflexivity.
  - rewrite Hseg. destruct (bytes_eqb vd expected) eqn:E; simpl.
    + apply bytes_eqb_eq in E. tauto.
    + apply bytes_eqb_neq in E. split; [discriminate|contradiction].
Qed.

(** C2: when the loop of [server_handshake] meets a Finished (type 0x14, a
    32-byte verify_data [vd]) in the decrypted plaintext, it compares [vd]
    with [HMAC(finished_key, SHA-256(transcript))], where [finished_key]
    is [HKDF-Expand-Label(server_hs_traffic_secret, "finished", "", 32)]
    and the transcript is that of the context before this Finished is
    appended.  On equality the Finished is appended and the loop flag is
    raised; on any mismatch the handshake fails with an assertion error.
    So the Finished is accepted if and only if the two are equal. *)
Theorem C2_server_finished_verification (c : TLSContext) (f : bool)
    (vd rest server_hs : bytes) :
  length vd = 32 ->
  server_hs_traffic_secret c = Some server_hs ->
  let finished_key := HKDF_expand_label server_hs (lit "finished") [] 32 in
  let expected := hmac_sha256 finished_key (sha256 (get_messages c)) in
  let segment := [x14] ++ bint_to_bytes 32 3 ++ vd in
  (vd = expected ->
   handshake_messages sha256 c f (segment ++ rest)
   = handshake_messages sha256 (append_message c segment) true rest) /\
  (vd <> expected ->
   handshake_messages sha256 c f (segment ++ rest) = Raise AssertionError) /\
  (is_ok (handshake_segment sha256 c f segment) = true <-> vd = expected).
Proof.
  intros Hlen Hsecret. apply finished_verification; assumption.
Qed.

End LoopClaims.

Section TranscriptClaims.
Context {P : Primitives}.
Import TinyTLS.

Lemma server_handshake_run (s s' : TLSSocket) :
  server_handshake s = Ok s' ->
  server_handshake_loop sha256 (ctx s) (sock s) = Ok (ctx s', sock s') /\
  server_hostname s' = server_hostname s /\ read_buf s' = read_buf s.
Proof.
  unfold server_handshake.
  destruct (server_handshake_loop sha256 (ctx s) (sock s)) as [[c sk]|e];
    simpl; [|discriminate].
  intros H. injection H as <-. auto.
Qed.

Lemma concat_flat_map_split (plaintexts : list bytes) :
  concat (flat_map split_messages plaintexts) = concat plaintexts.
Proof.
  induction plaintexts as [|pd rest IH]; simpl; [reflexivity|].
  now rewrite concat_app, concat_split_messages, IH.
Qed.

(** The messages of a plaintext made of whole messages are those
    messages. *)
Lemma split_messages_frames (ms : list (byte * bytes)) (rest : bytes) :
  Forall (fun m => (Z.of_nat (length (snd m)) < 256 ^ 3)%Z) ms ->
  split_messages (concat (map frame_message ms) ++ rest)
  = map frame_message ms ++ split_messages rest.
Proof.
  induction 1 as [|[t body] ms Hm Hms IH]; [reflexivity|].
  cbn [map concat]. rewrite <- app_assoc.
  set (tail := concat (map frame_message ms) ++ rest) in *.
  destruct (@cut_whole_message t body tail Hm) as [Hto Hfrom].
  change (frame_message (t, body))
    with (t :: bint_to_bytes (Z.of_nat (length body)) 3 ++ body) in *.
  cbn [app] in *. rewrite split_messages_equation_2.
  rewrite Hto, Hfrom, IH. reflexivity.
Qed.

Lemma flat_map_split_frames (flights : list (list (byte * bytes))) :
  Forall (Forall (fun m => (Z.of_nat (length (snd m)) < 256 ^ 3)%Z)) flights ->
  flat_map split_messages
    (map (fun ms => concat (map frame_message ms)) flights)
  = map frame_message (concat flights).
Proof.
  induction 1 as [|ms flights Hms Hflights IH]; [reflexivity|].
  cbn [map flat_map concat]. rewrite map_app, IH.
  rewrite <- (app_nil_r (concat (map frame_message ms))).
  rewrite split_messages_frames by exact Hms.
  simp split_messages. now rewrite app_nil_r.
Qed.

(** A framed message is a handshake-message body. *)
Lemma whole_message_frame (t : byte) (body : bytes) :
  (Z.of_nat (length body) < 256 ^ 3)%Z ->
  whole_message (frame_message (t, body)) = true.
Proof.
  intros Hsmall. unfold whole_message, frame_message. cbn [fst snd app].
  rewrite slice_1_4, firstn_app, length_bint_to_bytes, Nat.sub_diag.
  rewrite firstn_all2 by (rewrite length_bint_to_bytes; lia).
  cbn [firstn]. rewrite app_nil_r, bytes_to_bint_to_bytes.
  rewrite Z.mod_small by lia.
  cbn [length]. rewrite length_app, length_bint_to_bytes.
  apply andb_true_intro. split.
  - apply Nat.leb_le. lia.
  - apply Z.eqb_eq. lia.
Qed.

(** C8, as the code has it: in the loop that follows ServerHello, a
    ChangeCipherSpec record is skipped: the loop goes on from the same
    context with that record off the transport, whatever follows.  After
    any run of the loop the transcript is the former transcript followed,
    in order, by the segments cut from the plaintexts of the encrypted
    records consumed; it holds no record header and nothing of a
    ChangeCipherSpec record: as bytes, what was added is exactly the
    concatenation of those plaintexts.  The same holds record by record:
    the inner loop adds to the transcript the segments of the plaintext it
    is given, and nothing else.  The segments are handshake-message bodies
    when the plaintexts are made of whole messages, and only then: the
    loop cuts and appends the plaintext of every record that opens,
    whatever inner content type it was sealed with. *)
Theorem C8_change_cipher_spec_skipped_transcript_pure :
  (forall s hdr message rest,
     inbox (sock s) = (hdr, message) :: rest ->
     is_ccs (hdr, message) = true ->
     server_handshake s
     = server_handshake (with_sock s (mkSocket rest (outbox (sock s))))) /\
  (forall s s' a,
     server_handshake s = Ok s' ->
     server_traffic_crypto (ctx s) = Some a ->
     exists consumed,
       inbox (sock s) = consumed ++ inbox (sock s') /\
       messages (ctx s')
       = messages (ctx s) ++ flat_map split_messages (open_records a consumed) /\
       get_messages (ctx s')
       = get_messages (ctx s) ++ concat (open_records a consumed) /\
       open_records a (filter (fun r => negb (is_ccs r)) consumed)
       = open_records a consumed /\
       forall flights,
         Forall (Forall (fun m => (Z.of_nat (length (snd m)) < 256 ^ 3)%Z))
           flights ->
         open_records a consumed
         = map (fun ms => concat (map frame_message ms)) flights ->
         messages (ctx s')
         = messages (ctx s) ++ map frame_message (concat flights) /\
         forallb whole_message (map frame_message (concat flights)) = true) /\
  (forall c c' finished finished' plaindata,
     handshake_messages sha256 c finished plaindata = Ok (c', finished') ->
     messages c' = messages c ++ split_messages plaindata /\
     get_messages c' = get_messages c ++ plaindata) /\
  (forall c hdr message records out a plaindata content_type a',
     is_ccs (hdr, message) = false ->
     slice_to hdr 3 = [x17; x03; x03] ->
     server_traffic_crypto c = Some a ->
     decrypt_and_verify a message hdr = Some (plaindata, content_type, a') ->
     server_handshake_loop sha256 c (mkSocket ((hdr, message) :: records) out)
     = (r <- handshake_messages sha256
               (mutate_server_traffic_crypto c a') false plaindata ;;
        if snd r then Ok (fst r, mkSocket records out)
        else server_handshake_loop sha256 (fst r) (mkSocket records out))).
Proof.
  split; [|split; [|split]].
  - intros s hdr message rest Hin Hccs.
    unfold server_handshake. destruct s as [c [inb out] host buf].
    simpl in *. subst inb.
    rewrite server_handshake_loop_cons.
    unfold is_ccs in Hccs. simpl in Hccs. rewrite Hccs. reflexivity.
  - intros s s' a Hrun Ha.
    apply server_handshake_run in Hrun as [Hloop _].
    destruct (sock s) as [inb out] eqn:Esock.
    eapply server_handshake_loop_ok in Hloop; [|exact Ha].
    destruct Hloop
      as (consumed & earlier & last & a' & -> & _ & Hopen & _ & _ & Hctx).
    exists consumed. rewrite Hctx, Hopen. simpl.
    split; [reflexivity|]. split; [reflexivity|]. split; [|split].
    + unfold get_messages. simpl.
      now rewrite concat_app, concat_flat_map_split.
    + rewrite <- Hopen. clear. revert a.
      induction consumed as [|r rest IH]; intros a; simpl; [reflexivity|].
      destruct (is_ccs r) eqn:Eccs; simpl.
      * apply IH.
      * rewrite Eccs. destruct (decrypt_and_verify a (snd r) (fst r))
          as [[[pd ct] a1]|]; [|reflexivity].
        now rewrite IH.
    + intros flights Hsmall Hflights. rewrite Hflights.
      rewrite flat_map_split_frames by exact Hsmall.
      split; [reflexivity|].
      apply forallb_forall. intros m Hm.
      apply in_map_iff in Hm as ([t body] & <- & Hin).
      apply whole_message_frame.
      apply in_concat in Hin as (ms & Hms & Hin).
      rewrite Forall_forall in Hsmall. specialize (Hsmall ms Hms).
      rewrite Forall_forall in Hsmall. exact (Hsmall (t, body) Hin).
  - intros c c' finished finished' plaindata Hinner.
    apply handshake_messages_ok in Hinner as [-> _].
    rewrite fold_append_message. unfold get_messages. simpl.
    split; [reflexivity|].
    now rewrite concat_app, concat_split_messages.
  - intros c hdr message records out a plaindata content_type a'
      Hccs Hhdr Ha Hdec.
    rewrite server_handshake_loop_cons.
    unfold is_ccs in Hccs. cbn [fst] in Hccs. rewrite Hccs, Hhdr.
    cbn [app protocol.application_data protocol.TLS12].
    rewrite bytes_eqb_refl. cbn [assert_ bind].
    rewrite Ha. cbn [getattr bind]. rewrite Hdec. reflexivity.
Qed.

(** C9, as the code has it: a truncated message, one whose declared
    length exceeds the bytes that remain in the plaintext, is cut short by
    the slice and, unless its type is Finished, appended to the transcript
    as it is, without any error; the inner loop ends there, and when such
    a message is all a record holds the handshake loop goes on to the next
    record.  The loop is the one of both [TLSSocket] classes ([digest] is
    the transcript hash of either). *)
Theorem C9_truncated_message_appended (digest : bytes -> bytes)
    (c : TLSContext) (f : bool) (x : byte) (rest : bytes) :
  x <> x14 ->
  (Z.of_nat (length (x :: rest)) < bytes_to_bint (slice (x :: rest) 1 4) + 4)%Z ->
  handshake_messages digest c f (x :: rest)
  = Ok (append_message c (x :: rest), f) /\
  forall hdr message records out a content_type a',
    is_ccs (hdr, message) = false ->
    bytes_eqb (slice_to hdr 3) (protocol.application_data ++ protocol.TLS12)
    = true ->
    server_traffic_crypto c = Some a ->
    decrypt_and_verify a message hdr = Some (x :: rest, content_type, a') ->
    server_handshake_loop digest c (mkSocket ((hdr, message) :: records) out)
    = server_handshake_loop digest
        (append_message (mutate_server_traffic_crypto c a') (x :: rest))
        (mkSocket records out).
Proof.
  intros Hx Hshort.
  assert (Hinner : forall c0 f0,
            handshake_messages digest c0 f0 (x :: rest)
            = Ok (append_message c0 (x :: rest), f0)).
  { intros c0 f0. rewrite handshake_messages_cons.
    rewrite slice_to_all, slice_from_all by lia.
    unfold handshake_segment.
    replace (bytes_eqb (slice_to (x :: rest) 1) protocol.finished) with false.
    - simpl. now rewrite handshake_messages_equation_1.
    - symmetry. apply bytes_eqb_neq. intros E. apply Hx.
      now injection E. }
  split; [apply Hinner|].
  intros hdr message records out a content_type a' Hccs Hhdr Ha Hdec.
  rewrite server_handshake_loop_cons.
  unfold is_ccs in Hccs. simpl in Hccs. rewrite Hccs, Hhdr. simpl.
  rewrite Ha. simpl. rewrite Hdec, Hinner. reflexivity.
Qed.

End TranscriptClaims.

(** ** Claims on the key schedule *)

Section ScheduleClaims.
Context {P : Primitives}.
Import TinyTLS.

Lemma server_hello_run (s s' : TLSSocket) :
  server_hello s = Ok s' ->
  exists hdr message rest server_public,
    inbox (sock s) = (hdr, message) :: rest /\
    parse_server_hello message = Some server_public /\
    key_schedule_in_handshake
      (set_key_exchange (append_message (ctx s) message) server_public)
    = Ok (ctx s') /\
    sock s' = mkSocket rest (outbox (sock s)) /\
    server_hostname s' = server_hostname s /\ read_buf s' = read_buf s.
Proof.
  unfold server_hello, read_content.
  destruct (inbox (sock s)) as [|[hdr message] rest]; simpl; [discriminate|].
  destruct (_ && _); [discriminate|].
  destruct (assert_ _); simpl; [|discriminate].
  destruct (assert_ _); simpl; [|discriminate].
  destruct (parse_server_hello message) as [pub|] eqn:Ep; simpl; [|discriminate].
  destruct (key_schedule_in_handshake _) as [c|e] eqn:E; simpl; [|discriminate].
  intros H. injection H as <-.
  exists hdr, message, rest, pub. simpl. repeat split; assumption.
Qed.

(** The secrets and objects that [key_schedule_in_handshake] assigns. *)
Lemma key_schedule_in_handshake_run (c c' : TLSContext) :
  key_schedule_in_handshake c = Ok c' ->
  exists shared,
    shared_key c = Some shared /\
    let zeros := repeat x00 32 in
    let early := hmac_sha256 zeros zeros in
    let hs := hmac_sha256 (derive_secret early (lit "derived") []) shared in
    let client_hs := derive_secret hs (lit "c hs traffic") (get_messages c) in
    let server_hs := derive_secret hs (lit "s hs traffic") (get_messages c) in
    early_secret c' = Some early /\
    handshake_secret c' = Some hs /\
    client_hs_traffic_secret c' = Some client_hs /\
    server_hs_traffic_secret c' = Some server_hs /\
    client_traffic_crypto c'
    = Some (ChaCha20Poly1305 (fst (gen_key_and_iv client_hs))
              (snd (gen_key_and_iv client_hs))) /\
    server_traffic_crypto c'
    = Some (ChaCha20Poly1305 (fst (gen_key_and_iv server_hs))
              (snd (gen_key_and_iv server_hs))) /\
    messages c' = messages c /\
    shared_key c' = shared_key c /\
    master_secret c' = master_secret c /\
    assigned c' = assigned c ++
      ["early_secret"; "handshake_secret";
       "client_hs_traffic_secret"; "server_hs_traffic_secret";
       "client_traffic_crypto"; "server_traffic_crypto"]%string.
Proof.
  unfold key_schedule_in_handshake.
  destruct (shared_key c) as [shared|]; simpl; [|discriminate].
  intros H. exists shared. split; [reflexivity|]. cbv zeta.
  destruct (gen_key_and_iv (derive_secret _ (lit "c hs traffic") _)) as [ck civ].
  destruct (gen_key_and_iv (derive_secret _ (lit "s hs traffic") _)) as [sk siv].
  injection H as <-. simpl. repeat split.
Qed.

(** The secrets and objects that [key_schedule_in_app_data] assigns. *)
Lemma key_schedule_in_app_data_run (c c' : TLSContext) :
  key_schedule_in_app_data c = Ok c' ->
  exists hs,
    handshake_secret c = Some hs /\
    let zeros := repeat x00 32 in
    let ms := hmac_sha256 (derive_secret hs (lit "derived") []) zeros in
    master_secret c' = Some ms /\
    client_app_traffic_secret c'
    = Some (derive_secret ms (lit "c ap traffic") (get_messages c)) /\
    server_app_traffic_secret c'
    = Some (derive_secret ms (lit "s ap traffic") (get_messages c)) /\
    messages c' = messages c /\
    shared_key c' = shared_key c /\
    early_secret c' = early_secret c /\
    handshake_secret c' = handshake_secret c /\
    client_hs_traffic_secret c' = client_hs_traffic_secret c /\
    server_hs_traffic_secret c' = server_hs_traffic_secret c /\
    assigned c' = assigned c ++
      ["master_secret";
       "client_app_traffic_secret"; "server_app_traffic_secret";
       "client_app_data_crypto"; "server_app_data_crypto"]%string.
Proof.
  unfold key_schedule_in_app_data.
  destruct (handshake_secret c) as [hs|]; simpl; [|discriminate].
  intros H. exists hs. split; [reflexivity|]. cbv zeta.
  destruct (gen_key_and_iv (derive_secret _ (lit "c ap traffic") _)) as [ck civ].
  destruct (gen_key_and_iv (derive_secret _ (lit "s ap traffic") _)) as [sk siv].
  injection H as <-. simpl. repeat split.
Qed.

(** The course of a successful [wrap_socket]: the first record is the
    ServerHello, the handshake loop consumes the records that follow up to
    the first plaintext that holds a Finished, the client's Finished is
    sent, and the application secrets are derived from the context the
    loop left. *)
Lemma wrap_socket_run (private : bytes) (sk : socket) (hostname : option bytes)
    (s : TLSSocket) :
  wrap_socket (TLSContext_init private) sk hostname = Ok s ->
  exists hdr sh server_public c2 a consumed earlier last a' c3,
    let ch := client_hello_message (base_point_mult private) hostname in
    inbox sk = (hdr, sh) :: consumed ++ inbox (sock s) /\
    parse_server_hello sh = Some server_public /\
    key_schedule_in_handshake
      (set_key_exchange
         (append_message (append_message (TLSContext_init private) ch) sh)
         server_public) = Ok c2 /\
    server_traffic_crypto c2 = Some a /\
    open_records a consumed = earlier ++ [last] /\
    Forall (fun pd => existsb is_finished (split_messages pd) = false) earlier /\
    existsb is_finished (split_messages last) = true /\
    messages c3 = [ch; sh] ++ flat_map split_messages (earlier ++ [last]) /\
    c3 = set_messages (mutate_server_traffic_crypto c2 a') (messages c3) /\
    exists a'',
      key_schedule_in_app_data (mutate_client_traffic_crypto c3 a'') = Ok (ctx s).
Proof.
  unfold wrap_socket. simpl bind at 1.
  set (s0 := with_sock _ _).
  destruct (server_hello s0) as [s1|e] eqn:E1; simpl; [|discriminate].
  destruct (server_handshake s1) as [s2|e] eqn:E2; simpl; [|discriminate].
  destruct (send_finished s2) as [s3|e] eqn:E3; simpl; [|discriminate].
  destruct (key_schedule s3) as [s4|e] eqn:E4; simpl; [|discriminate].
  intros H. injection H as <-.
  apply server_hello_run in E1
    as (hdr & sh & rest & pub & Hin & Hparse & Hks & Hsock1 & _).
  subst s0. simpl in Hin, Hks, Hsock1.
  pose proof Hks as Hks'.
  apply key_schedule_in_handshake_run in Hks'
    as (shared & _ & _ & _ & _ & _ & _ & Ha & Hmsgs & _).
  cbv zeta in Ha, Hmsgs.
  apply server_handshake_run in E2 as [Hloop _].
  rewrite Hsock1 in Hloop.
  eapply server_handshake_loop_ok in Hloop; [|exact Ha].
  destruct Hloop
    as (consumed & earlier & last & a' & -> & Hout & Hopen & Hearly & Hlast & Hctx2).
  apply send_finished_sends in E3
    as (secret & ac & _ & _ & _ & Hin3 & Hctx3 & _).
  unfold key_schedule in E4.
  destruct (key_schedule_in_app_data (ctx s3)) as [c4|e] eqn:Eks; simpl in E4;
    [|discriminate].
  injection E4 as <-. simpl.
  eexists hdr, sh, pub, (ctx s1), _, consumed, earlier, last, a', (ctx s2).
  cbv zeta. rewrite Hin3.
  split; [exact Hin|]. split; [exact Hparse|]. split; [exact Hks|].
  split; [exact Ha|]. split; [exact Hopen|]. split; [exact Hearly|].
  split; [exact Hlast|]. split; [|split].
  - rewrite Hctx2. simpl. rewrite Hmsgs. reflexivity.
  - rewrite Hctx2. reflexivity.
  - eexists. rewrite <- Hctx3. exact Eks.
Qed.

End ScheduleClaims.

Section ScheduleTheorems.
Context {P : Primitives}.
Import TinyTLS.

(** C1, as the code has it: the transcript handed to Derive-Secret for
    "c hs traffic" and "s hs traffic" is ClientHello then ServerHello.
    The one handed over for "c ap traffic" and "s ap traffic" is the
    transcript at the end of [server_handshake]: ClientHello, ServerHello
    and the messages of the encrypted records read up to and including
    the first that holds a Finished.  It is exactly the handshake messages
    through the server's Finished whenever the Finished is the last
    message of its record, and the client's Finished is never part of
    it. *)
Theorem C1_traffic_secret_transcripts (private : bytes) (sk : socket)
    (hostname : option bytes) (s : TLSSocket) :
  wrap_socket (TLSContext_init private) sk hostname = Ok s ->
  exists hdr sh hs ms consumed earlier last,
    let ch := client_hello_message (base_point_mult private) hostname in
    let server_hs := derive_secret hs (lit "s hs traffic") (ch ++ sh) in
    let a := ChaCha20Poly1305 (fst (gen_key_and_iv server_hs))
               (snd (gen_key_and_iv server_hs)) in
    inbox sk = (hdr, sh) :: consumed ++ inbox (sock s) /\
    handshake_secret (ctx s) = Some hs /\
    master_secret (ctx s) = Some ms /\
    client_hs_traffic_secret (ctx s)
    = Some (derive_secret hs (lit "c hs traffic") (ch ++ sh)) /\
    server_hs_traffic_secret (ctx s) = Some server_hs /\
    open_records a consumed = earlier ++ [last] /\
    Forall (fun pd => existsb is_finished (split_messages pd) = false) earlier /\
    existsb is_finished (split_messages last) = true /\
    messages (ctx s) = [ch; sh] ++ flat_map split_messages (earlier ++ [last]) /\
    client_app_traffic_secret (ctx s)
    = Some (derive_secret ms (lit "c ap traffic")
              (ch ++ sh ++ concat (earlier ++ [last]))) /\
    server_app_traffic_secret (ctx s)
    = Some (derive_secret ms (lit "s ap traffic")
              (ch ++ sh ++ concat (earlier ++ [last]))) /\
    (forall before fin,
       split_messages last = before ++ [fin] ->
       let through_fin :=
         ([ch; sh] ++ flat_map split_messages earlier ++ before) ++ [fin] in
       messages (ctx s) = through_fin /\
       client_app_traffic_secret (ctx s)
       = Some (derive_secret ms (lit "c ap traffic") (concat through_fin)) /\
       server_app_traffic_secret (ctx s)
       = Some (derive_secret ms (lit "s ap traffic") (concat through_fin))).
Proof.
  intros Hrun. apply wrap_socket_run in Hrun
    as (hdr & sh & pub & c2 & a & consumed & earlier & last & a' & c3
        & Hin & _ & Hks & Ha & Hopen & Hearly & Hlast & Hmsgs & Hc3 & a'' & Happ).
  cbv zeta in *.
  apply key_schedule_in_handshake_run in Hks
    as (shared & _ & _ & Hhs2 & Hchs2 & Hshs2 & _ & Ha2 & _).
  cbv zeta in *.
  assert (Hg2 : get_messages
                  (set_key_exchange
                     (append_message
                        (append_message (TLSContext_init private)
                           (client_hello_message (base_point_mult private) hostname))
                        sh) pub)
                = client_hello_message (base_point_mult private) hostname ++ sh).
  { unfold get_messages. simpl. now rewrite app_nil_r. }
  rewrite Hg2 in Hchs2, Hshs2, Ha2.
  apply key_schedule_in_app_data_run in Happ
    as (hs & Hhs & Hms & Hcap & Hsap & Hm4 & _ & _ & Hhs4 & Hchs4 & Hshs4 & _).
  cbv zeta in *.
  assert (Hget : get_messages (mutate_client_traffic_crypto c3 a'')
                 = client_hello_message (base_point_mult private) hostname
                     ++ sh ++ concat (earlier ++ [last])).
  { unfold get_messages. simpl messages. rewrite Hmsgs.
    cbn [app concat]. now rewrite concat_flat_map_split. }
  rewrite Hget in Hcap, Hsap.
  rewrite Hc3 in Hhs, Hhs4, Hchs4, Hshs4. simpl in Hhs, Hhs4, Hchs4, Hshs4.
  rewrite Hhs2 in Hhs. injection Hhs as <-.
  rewrite Ha2 in Ha. injection Ha as <-.
  eexists hdr, sh, _, _, consumed, earlier, last.
  split; [exact Hin|]. split; [rewrite Hhs4; exact Hhs2|].
  split; [exact Hms|]. split; [rewrite Hchs4; exact Hchs2|].
  split; [rewrite Hshs4; exact Hshs2|]. split; [exact Hopen|].
  split; [exact Hearly|]. split; [exact Hlast|].
  split; [rewrite Hm4; exact Hmsgs|]. split; [exact Hcap|].
  split; [exact Hsap|].
  intros before fin Hsplit. cbv zeta.
  assert (Hthrough :
            [client_hello_message (base_point_mult private) hostname; sh]
              ++ flat_map split_messages (earlier ++ [last])
            = ([client_hello_message (base_point_mult private) hostname; sh]
                 ++ flat_map split_messages earlier ++ before) ++ [fin]).
  { rewrite flat_map_app. simpl flat_map. rewrite app_nil_r, Hsplit.
    now rewrite !app_assoc. }
  assert (Hconcat :
            concat ([client_hello_message (base_point_mult private) hostname; sh]
                      ++ flat_map split_messages (earlier ++ [last]))
            = client_hello_message (base_point_mult private) hostname
                ++ sh ++ concat (earlier ++ [last])).
  { cbn [app concat]. now rewrite concat_flat_map_split. }
  assert (Hc : concat
                 (([client_hello_message (base_point_mult private) hostname; sh]
                     ++ flat_map split_messages earlier ++ before) ++ [fin])
               = client_hello_message (base_point_mult private) hostname
                   ++ sh ++ concat (earlier ++ [last])).
  { etransitivity; [|exact Hconcat]. f_equal. symmetry. exact Hthrough. }
  split; [rewrite Hm4; etransitivity; [exact Hmsgs|exact Hthrough]|].
  split.
  - etransitivity; [exact Hcap|]. do 2 f_equal. symmetry. exact Hc.
  - etransitivity; [exact Hsap|]. do 2 f_equal. symmetry. exact Hc.
Qed.

(** C5, as the code has it: the three secrets of the schedule are
    [early_secret = HMAC(0^32, 0^32)],
    [handshake_secret = HMAC(Derive-Secret(early_secret, "derived", ""), shared_key)]
    and [master_secret = HMAC(Derive-Secret(handshake_secret, "derived", ""), 0^32)];
    over a handshake each attribute of the context is assigned exactly
    once, the three secrets in this order.  The early secret is computed
    by [key_schedule_in_handshake], when ServerHello is processed: a
    context just created has none. *)
Theorem C5_key_schedule_chain (private : bytes) (sk : socket)
    (hostname : option bytes) (s : TLSSocket) :
  wrap_socket (TLSContext_init private) sk hostname = Ok s ->
  exists shared,
    let zeros := repeat x00 32 in
    let early := hmac_sha256 zeros zeros in
    let hs := hmac_sha256 (derive_secret early (lit "derived") []) shared in
    let ms := hmac_sha256 (derive_secret hs (lit "derived") []) zeros in
    shared_key (ctx s) = Some shared /\
    early_secret (ctx s) = Some early /\
    handshake_secret (ctx s) = Some hs /\
    master_secret (ctx s) = Some ms /\
    assigned (ctx s) =
      ["client_private"; "client_public"; "messages"; "shared_key";
       "early_secret"; "handshake_secret";
       "client_hs_traffic_secret"; "server_hs_traffic_secret";
       "client_traffic_crypto"; "server_traffic_crypto";
       "master_secret";
       "client_app_traffic_secret"; "server_app_traffic_secret";
       "client_app_data_crypto"; "server_app_data_crypto"]%string /\
    early_secret (TLSContext_init private) = None /\
    assigned (TLSContext_init private)
    = ["client_private"; "client_public"; "messages"]%string.
Proof.
  intros Hrun. apply wrap_socket_run in Hrun
    as (hdr & sh & pub & c2 & a & consumed & earlier & last & a' & c3
        & _ & _ & Hks & _ & _ & _ & _ & _ & Hc3 & a'' & Happ).
  cbv zeta in *.
  apply key_schedule_in_handshake_run in Hks
    as (shared & Hshared & Hearly2 & Hhs2 & _ & _ & _ & _ & _ & Hsh2 & _ & Has2).
  cbv zeta in *. simpl in Hshared, Hsh2, Has2. injection Hshared as <-.
  apply key_schedule_in_app_data_run in Happ
    as (hs & Hhs & Hms & _ & _ & _ & Hsh4 & Hearly4 & Hhs4 & _ & _ & Has4).
  cbv zeta in *.
  rewrite Hc3 in Hhs, Hsh4, Hearly4, Hhs4, Has4.
  simpl in Hhs, Hsh4, Hearly4, Hhs4, Has4.
  rewrite Hhs2 in Hhs. injection Hhs as <-.
  exists (multscalar private pub).
  split; [rewrite Hsh4; exact Hsh2|]. split; [rewrite Hearly4; exact Hearly2|].
  split; [rewrite Hhs4; exact Hhs2|]. split; [exact Hms|].
  split; [rewrite Has4, Has2; reflexivity|]. split; reflexivity.
Qed.

End ScheduleTheorems.

(** ** Claims on the application receive path *)

Section RecvClaims.
Context {P : Primitives}.
Import TinyTLS.

Lemma length_slice_to (s : bytes) (n : Z) :
  (0 <= n)%Z -> (Z.of_nat (length (slice_to s n)) <= n)%Z.
Proof.
  intros H. rewrite slice_to_nonneg by exact H.
  rewrite length_firstn. lia.
Qed.

(** [recv] on a non-empty buffer serves from the buffer and leaves the
    transport and the context alone. *)
Lemma recv_buffered (s : TLSSocket) (n : Z) :
  read_buf s <> [] ->
  recv s n = Ok (slice_to (read_buf s) n,
                 with_read_buf s (slice_from (read_buf s) n)).
Proof.
  intros H. unfold recv. destruct (read_buf s) as [|x buf] eqn:E; [contradiction|].
  simpl. rewrite E. reflexivity.
Qed.

(** [recv] on an empty buffer reads exactly one record, opens it with the
    server-to-client application AEAD, serves from its plaintext and keeps
    the rest. *)
Lemma recv_refill (s s' : TLSSocket) (n : Z) (r : bytes) :
  read_buf s = [] ->
  recv s n = Ok (r, s') ->
  exists hdr message a plaindata content_type a',
    inbox (sock s) = (hdr, message) :: inbox (sock s') /\
    outbox (sock s') = outbox (sock s) /\
    server_app_data_crypto (ctx s) = Some a /\
    decrypt_and_verify a message hdr = Some (plaindata, content_type, a') /\
    ctx s' = mutate_server_app_data_crypto (ctx s) a' /\
    r = slice_to plaindata n /\
    read_buf s' = slice_from plaindata n.
Proof.
  intros Hbuf. unfold recv, read_content. rewrite Hbuf. simpl.
  destruct (inbox (sock s)) as [|[hdr message] rest]; simpl; [discriminate|].
  destruct (server_app_data_crypto (ctx s)) as [a|]; simpl; [|discriminate].
  destruct (decrypt_and_verify a message hdr) as [[[pd ct] a']|] eqn:E;
    simpl; [|discriminate].
  intros H. injection H as <- <-.
  exists hdr, message, a, pd, ct, a'. simpl. repeat split. exact E.
Qed.

(** X1: [recv] of [tinytls] for a non-negative [n] returns at most [n]
    bytes.  On a non-empty buffer they are the head of the buffer, and
    neither the transport nor the context is touched; on an empty buffer
    exactly one record is read and opened, the bytes are the head of its
    plaintext, and in both cases the surplus stays buffered. *)
Theorem X1_recv_at_most (s s' : TLSSocket) (n : Z) (r : bytes) :
  (0 <= n)%Z ->
  recv s n = Ok (r, s') ->
  (Z.of_nat (length r) <= n)%Z /\
  ((read_buf s <> [] /\ sock s' = sock s /\ ctx s' = ctx s /\
    read_buf s = r ++ read_buf s') \/
   (read_buf s = [] /\
    exists record a plaindata content_type a',
      inbox (sock s) = record :: inbox (sock s') /\
      server_app_data_crypto (ctx s) = Some a /\
      decrypt_and_verify a (snd record) (fst record)
      = Some (plaindata, content_type, a') /\
      plaindata = r ++ read_buf s')).
Proof.
  intros Hn Hrecv. destruct (read_buf s) as [|x buf] eqn:Ebuf.
  - destruct (recv_refill _ _ Ebuf Hrecv)
      as (hdr & message & a & pd & ct & a' & Hin & _ & Ha & Hdec & _ & -> & Hbuf').
    split; [now apply length_slice_to|]. right. split; [reflexivity|].
    exists (hdr, message), a, pd, ct, a'. rewrite Hbuf'.
    repeat split; auto. symmetry. apply slice_to_from.
  - rewrite recv_buffered in Hrecv by (rewrite Ebuf; discriminate).
    injection Hrecv as <- <-. rewrite Ebuf.
    split; [now apply length_slice_to|]. left.
    split; [discriminate|]. simpl. repeat split.
    symmetry. apply slice_to_from.
Qed.

(** C10: with an empty receive buffer, a record whose decrypted content is
    empty makes [recv] return the empty byte string, whatever [n] is and
    whatever records the transport still holds: an empty result does not
    mean end-of-stream. *)
Theorem C10_empty_record_yields_empty_read (s : TLSSocket) (n : Z)
    (hdr message content_type : bytes) (rest : list (bytes * bytes))
    (a a' : aead) :
  read_buf s = [] ->
  inbox (sock s) = (hdr, message) :: rest ->
  server_app_data_crypto (ctx s) = Some a ->
  decrypt_and_verify a message hdr = Some ([], content_type, a') ->
  exists s',
    recv s n = Ok ([], s') /\
    inbox (sock s') = rest /\
    read_buf s' = [] /\
    server_app_data_crypto (ctx s') = Some a'.
Proof.
  intros Hbuf Hin Ha Hdec. unfold recv, read_content.
  rewrite Hbuf, Hin. simpl. rewrite Ha. simpl. rewrite Hdec.
  cbn [bind read_buf with_read_buf].
  rewrite slice_to_nil, slice_from_nil.
  eexists. split; [reflexivity|]. simpl. repeat split.
Qed.

End RecvClaims.

(** ** The engine of [tinytls13]

    The [TLSSocket] of [src/tinytls13/tlssocket.py] runs the same handshake
    loop (over [hkdf.transcript_hash]) and builds the same records, inline;
    its [recv] differs. *)

Section Legacy.
Context {P : Primitives}.

Lemma tinytls13_server_handshake_run (s s' : TinyTLS13.TLSSocket) :
  TinyTLS13.server_handshake s = Ok s' ->
  TinyTLS.server_handshake_loop transcript_hash
    (TinyTLS13.ctx s) (TinyTLS13.sock s)
  = Ok (TinyTLS13.ctx s', TinyTLS13.sock s').
Proof.
  unfold TinyTLS13.server_handshake.
  destruct (TinyTLS.server_handshake_loop _ _ _) as [[c sk]|e]; simpl;
    [|discriminate].
  intros H. injection H as <-. reflexivity.
Qed.

(** The transcript after the loop of [tinytls13], as for [tinytls]. *)
Lemma tinytls13_transcript (s s' : TinyTLS13.TLSSocket) (a : aead) :
  TinyTLS13.server_handshake s = Ok s' ->
  TinyTLS.server_traffic_crypto (TinyTLS13.ctx s) = Some a ->
  exists consumed,
    inbox (TinyTLS13.sock s) = consumed ++ inbox (TinyTLS13.sock s') /\
    TinyTLS.messages (TinyTLS13.ctx s')
    = TinyTLS.messages (TinyTLS13.ctx s)
        ++ flat_map split_messages (open_records a consumed).
Proof.
  intros Hrun Ha. apply tinytls13_server_handshake_run in Hrun.
  destruct (TinyTLS13.sock s) as [inb out] eqn:Esock.
  eapply server_handshake_loop_ok in Hrun; [|exact Ha].
  destruct Hrun
    as (consumed & earlier & last & a' & -> & _ & Hopen & _ & _ & Hctx).
  exists consumed. rewrite Hctx, Hopen. simpl. auto.
Qed.

Lemma tinytls13_ccs_skipped (s : TinyTLS13.TLSSocket) (hdr message : bytes)
    (rest : list (bytes * bytes)) :
  inbox (TinyTLS13.sock s) = (hdr, message) :: rest ->
  is_ccs (hdr, message) = true ->
  TinyTLS13.server_handshake s
  = TinyTLS13.server_handshake
      (TinyTLS13.with_sock s (mkSocket rest (outbox (TinyTLS13.sock s)))).
Proof.
  intros Hin Hccs. unfold TinyTLS13.server_handshake.
  destruct s as [[inb out] priv pub c]. simpl in *. subst inb.
  rewrite server_handshake_loop_cons.
  unfold is_ccs in Hccs. simpl in Hccs. rewrite Hccs. reflexivity.
Qed.

(** The three senders of [tinytls13] build the record that
    [_encrypted_app_data] builds, and leave the transcript alone. *)
Lemma tinytls13_send_finished (s s' : TinyTLS13.TLSSocket) :
  TinyTLS13.send_finished s = Ok s' ->
  exists secret a,
    TinyTLS.client_hs_traffic_secret (TinyTLS13.ctx s) = Some secret /\
    TinyTLS.client_traffic_crypto (TinyTLS13.ctx s) = Some a /\
    let verify_data :=
      hmac_sha256 (HKDF_expand_label secret (lit "finished") [] 32)
        (transcript_hash (TinyTLS.get_messages (TinyTLS13.ctx s))) in
    outbox (TinyTLS13.sock s') = outbox (TinyTLS13.sock s)
      ++ [fst (TinyTLS._encrypted_app_data
                 ([x14] ++ bint_to_bytes (Z.of_nat (length verify_data)) 3
                    ++ verify_data)
                 [x16] a)] /\
    TinyTLS.messages (TinyTLS13.ctx s') = TinyTLS.messages (TinyTLS13.ctx s).
Proof.
  unfold TinyTLS13.send_finished.
  destruct (TinyTLS.client_hs_traffic_secret (TinyTLS13.ctx s)) as [secret|];
    cbn [bind getattr]; [|discriminate].
  destruct (TinyTLS.client_traffic_crypto (TinyTLS13.ctx s)) as [a|];
    cbn [bind getattr]; [|discriminate].
  intros H. exists secret, a. split; [reflexivity|]. split; [reflexivity|].
  cbv zeta. unfold TinyTLS._encrypted_app_data.
  unfold TinyTLS13.finish_message in H.
  destruct (encrypt_and_tag a _ _) as [encrypted a'].
  injection H as <-. split; reflexivity.
Qed.

Lemma tinytls13_send (s s' : TinyTLS13.TLSSocket) (data : bytes) :
  TinyTLS13.send s data = Ok s' ->
  exists a,
    TinyTLS.client_app_data_crypto (TinyTLS13.ctx s) = Some a /\
    outbox (TinyTLS13.sock s') = outbox (TinyTLS13.sock s)
      ++ [fst (TinyTLS._encrypted_app_data data [x17] a)].
Proof.
  unfold TinyTLS13.send.
  destruct (TinyTLS.client_app_data_crypto (TinyTLS13.ctx s)) as [a|];
    cbn [bind getattr]; [|discriminate].
  intros H. exists a. split; [reflexivity|].
  unfold TinyTLS._encrypted_app_data.
  destruct (encrypt_and_tag a _ _) as [encrypted a'].
  injection H as <-. reflexivity.
Qed.

Lemma tinytls13_send_alert (s s' : TinyTLS13.TLSSocket) :
  TinyTLS13.send_alert s = Ok s' ->
  exists a,
    TinyTLS.client_app_data_crypto (TinyTLS13.ctx s) = Some a /\
    outbox (TinyTLS13.sock s') = outbox (TinyTLS13.sock s)
      ++ [fst (TinyTLS._encrypted_app_data [x02; x00] [x15] a)].
Proof.
  unfold TinyTLS13.send_alert.
  destruct (TinyTLS.client_app_data_crypto (TinyTLS13.ctx s)) as [a|];
    cbn [bind getattr]; [|discriminate].
  intros H. exists a. split; [reflexivity|].
  unfold TinyTLS._encrypted_app_data.
  change (([x02; x00] ++ [x15]) ++ pad16 (length ([x02; x00] ++ [x15])))
    with (([x02] ++ protocol.close_notify ++ protocol.alert)
            ++ pad16 (length ([x02] ++ protocol.close_notify ++ protocol.alert))).
  destruct (encrypt_and_tag a _ _) as [encrypted a'].
  injection H as <-. reflexivity.
Qed.

(** [recv] of [tinytls13] returns the whole plaintext of the one record it
    reads, whatever its argument. *)
Lemma tinytls13_recv_whole_record (s s' : TinyTLS13.TLSSocket) (n : Z)
    (r : bytes) :
  TinyTLS13.recv s n = Ok (r, s') ->
  exists hdr message a content_type a',
    inbox (TinyTLS13.sock s) = (hdr, message) :: inbox (TinyTLS13.sock s') /\
    TinyTLS.server_app_data_crypto (TinyTLS13.ctx s) = Some a /\
    decrypt_and_verify a message hdr = Some (r, content_type, a').
Proof.
  unfold TinyTLS13.recv, read_content.
  destruct (inbox (TinyTLS13.sock s)) as [|[hdr message] rest]; simpl;
    [discriminate|].
  destruct (TinyTLS.server_app_data_crypto (TinyTLS13.ctx s)) as [a|]; simpl;
    [|discriminate].
  destruct (decrypt_and_verify a message hdr) as [[[pd ct] a']|] eqn:E;
    [|discriminate].
  intros H. injection H as <- <-.
  exists hdr, message, a, ct, a'. simpl. auto.
Qed.

End Legacy.

(** * Further properties of the engine *)

(** ** ServerHello *)

Section HelloProperties.
Context {P : Primitives}.
Import TinyTLS.




End HelloProperties.

(** ** The handshake loop: frame, stop and errors *)

Section HandshakeLoopProperties.
Context {P : Primitives}.
Variable digest : bytes -> bytes.
Import TinyTLS.






End HandshakeLoopProperties.

Section HandshakeProperties.
Context {P : Primitives}.
Import TinyTLS.


End HandshakeProperties.

(** ** The application phase *)

Section ApplicationProperties.
Context {P : Primitives}.
Import TinyTLS.







End ApplicationProperties.

(** ** [tinytls13] against [tinytls] *)

Section LegacyAgainstCurrent.
Context {P : Primitives}.
Import TinyTLS.





End LegacyAgainstCurrent.

(** ** The session as a whole *)

Section SessionProperties.
Context {P : Primitives}.
Import TinyTLS.










End SessionProperties.

(** * Concrete handshakes

    The statements above at the runs of the scripted peer, over the
    reference instance of the primitives. *)

#[local] Existing Instance Toy.toy.

Lemma from_ok_eq {A : Type} (default : A) (r : result A) :
  is_ok r = true -> r = Ok (Script.from_ok default r).
Proof. destruct r; simpl; [reflexivity|discriminate]. Qed.

Lemma script_established :
  TinyTLS.wrap_socket (TinyTLS.TLSContext_init Script.private)
    (mkSocket Script.handshake_inbox []) None
  = Ok Script.established.
Proof. apply from_ok_eq. vm_compute. reflexivity. Qed.

Lemma script_handshaken :
  TinyTLS.server_handshake Script.hello_done = Ok Script.handshaken.
Proof. apply from_ok_eq. vm_compute. reflexivity. Qed.

Lemma script_finished_sent :
  TinyTLS.send_finished Script.handshaken = Ok Script.finished_sent.
Proof. apply from_ok_eq. vm_compute. reflexivity. Qed.

Lemma script_trailing :
  TinyTLS.wrap_socket (TinyTLS.TLSContext_init Script.private)
    (mkSocket Script.trailing_inbox []) None
  = Ok Script.trailing.
Proof. apply from_ok_eq. vm_compute. reflexivity. Qed.

Lemma script_closed : TinyTLS.exit_ Script.established = Ok Script.closed.
Proof. apply from_ok_eq. vm_compute. reflexivity. Qed.

(** ** C1 *)

Lemma C1_traffic_secret_transcripts_witness :
  TinyTLS.wrap_socket (TinyTLS.TLSContext_init Script.private)
    (mkSocket Script.handshake_inbox []) None
  = Ok Script.established /\
  exists sh earlier last,
    TinyTLS.messages (TinyTLS.ctx Script.established)
    = [Script.client_hello_body; sh]
        ++ flat_map split_messages (earlier ++ [last]).
Proof.
  split; [exact script_established|].
  destruct (C1_traffic_secret_transcripts _ _ _ script_established)
    as (hdr & sh & hs & ms & consumed & earlier & last & _ & _ & _ & _ & _
        & _ & _ & _ & Hmsgs & _).
  exists sh, earlier, last. exact Hmsgs.
Defined.

(** C1, as stated, fails on the run over [Script.trailing_inbox], where a
    NewSessionTicket follows the server's Finished in its record: the
    handshake completes, the transcript handed over for "c ap traffic" and
    "s ap traffic" runs past the server's Finished, and the application
    secrets are not those of the transcript through the Finished. *)
Lemma C1_snapshot_runs_past_finished :
  let through_finished :=
    Script.client_hello_body ++ Script.server_hello_body
      ++ Script.encrypted_extensions
      ++ Script.server_finished Script.encrypted_extensions in
  TinyTLS.wrap_socket (TinyTLS.TLSContext_init Script.private)
    (mkSocket Script.trailing_inbox []) None
  = Ok Script.trailing /\
  TinyTLS.master_secret (TinyTLS.ctx Script.trailing)
  = Some Script.trailing_master_secret /\
  TinyTLS.get_messages (TinyTLS.ctx Script.trailing)
  = through_finished ++ Script.new_session_ticket /\
  TinyTLS.client_app_traffic_secret (TinyTLS.ctx Script.trailing)
  = Some (derive_secret Script.trailing_master_secret (lit "c ap traffic")
            (through_finished ++ Script.new_session_ticket)) /\
  TinyTLS.client_app_traffic_secret (TinyTLS.ctx Script.trailing)
  <> Some (derive_secret Script.trailing_master_secret (lit "c ap traffic")
             through_finished) /\
  TinyTLS.server_app_traffic_secret (TinyTLS.ctx Script.trailing)
  <> Some (derive_secret Script.trailing_master_secret (lit "s ap traffic")
             through_finished).
Proof.
  cbv zeta. split; [exact script_trailing|].
  split; [vm_compute; reflexivity|].
  split; [vm_compute; reflexivity|].
  split; [vm_compute; reflexivity|].
  split; vm_compute; discriminate.
Qed.

(** ** C2 *)

Lemma C2_server_finished_verification_witness :
  let c := Script.ctx_encrypted_extensions in
  let vd := spec_verify_data Script.server_hs_secret (TinyTLS.get_messages c) in
  let segment := [x14] ++ bint_to_bytes 32 3 ++ vd in
  length vd = 32 /\
  TinyTLS.server_hs_traffic_secret c = Some Script.server_hs_secret /\
  TinyTLS.handshake_messages sha256 c false (segment ++ [])
  = TinyTLS.handshake_messages sha256 (TinyTLS.append_message c segment) true [].
Proof.
  cbv zeta.
  assert (Hlen : length (spec_verify_data Script.server_hs_secret
                           (TinyTLS.get_messages Script.ctx_encrypted_extensions))
                 = 32) by (vm_compute; reflexivity).
  assert (Hsecret : TinyTLS.server_hs_traffic_secret Script.ctx_encrypted_extensions
                    = Some Script.server_hs_secret) by (vm_compute; reflexivity).
  split; [exact Hlen|]. split; [exact Hsecret|].
  exact (proj1 (@C2_server_finished_verification Toy.toy
                  Script.ctx_encrypted_extensions false _ [] _ Hlen Hsecret)
           eq_refl).
Defined.

(** ** C3 *)

Lemma C3_send_finished_keeps_transcript_witness :
  TinyTLS.send_finished Script.handshaken = Ok Script.finished_sent /\
  TinyTLS.messages (TinyTLS.ctx Script.finished_sent)
  = TinyTLS.messages (TinyTLS.ctx Script.handshaken).
Proof.
  split; [exact script_finished_sent|].
  exact (proj1 (@C3_send_finished_keeps_transcript Toy.toy _ _ script_finished_sent)).
Defined.

(** C3, as stated, fails: after [send_finished] the transcript is the one
    before it, whose last message is the server's Finished; the client's
    Finished went out in the record sent and is not at the end of the
    transcript. *)
Lemma C3_client_finished_not_appended :
  TinyTLS.send_finished Script.handshaken = Ok Script.finished_sent /\
  TinyTLS.messages (TinyTLS.ctx Script.finished_sent)
  = [Script.client_hello_body; Script.server_hello_body;
     Script.encrypted_extensions;
     Script.server_finished Script.encrypted_extensions] /\
  last (outbox (TinyTLS.sock Script.finished_sent)) []
  = fst (TinyTLS._encrypted_app_data Script.client_finished [x16]
           (Toy.mkToyAead
              (fst (gen_key_and_iv Script.client_hs_secret))
              (snd (gen_key_and_iv Script.client_hs_secret)) 0)) /\
  last (TinyTLS.messages (TinyTLS.ctx Script.finished_sent)) []
  <> Script.client_finished /\
  ends_with (TinyTLS.get_messages (TinyTLS.ctx Script.finished_sent))
    Script.client_finished = false.
Proof.
  split; [exact script_finished_sent|].
  split; [vm_compute; reflexivity|].
  split; [vm_compute; reflexivity|].
  split; [vm_compute; discriminate|].
  vm_compute; reflexivity.
Qed.

(** ** C4 *)

Lemma C4_encrypted_record_shape_witness :
  let e := Toy.mkToyAead (repeat x01 32) (repeat x02 12) 0 in
  let inner := spec_inner_plaintext (lit "ping") [x17] in
  let aad := spec_outer_header (length inner + 16) in
  let sealed := fst (encrypt_and_tag e inner aad) in
  (forall a m aad', length (fst (encrypt_and_tag a m aad')) = length m + 16) /\
  fst (TinyTLS._encrypted_app_data (lit "ping") [x17] e)
    = spec_outer_header (length sealed) ++ sealed /\
  inner = lit "ping" ++ [x17] ++ repeat x00 11 /\
  aad = [x17; x03; x03; x00; x20] /\
  aad = spec_outer_header (length sealed).
Proof.
  cbv zeta. split; [exact toy_seal_length|].
  destruct (proj1 (@C4_encrypted_record_shape Toy.toy toy_seal_length)
              (lit "ping") [x17]
              (Toy.mkToyAead (repeat x01 32) (repeat x02 12) 0))
    as (Hrecord & _ & _ & _ & Haad & _).
  split; [exact Hrecord|]. split; [reflexivity|].
  split; [reflexivity|exact Haad].
Defined.

(** ** C5 *)

Lemma C5_key_schedule_chain_witness :
  TinyTLS.wrap_socket (TinyTLS.TLSContext_init Script.private)
    (mkSocket Script.handshake_inbox []) None
  = Ok Script.established /\
  exists shared,
    TinyTLS.shared_key (TinyTLS.ctx Script.established) = Some shared /\
    TinyTLS.master_secret (TinyTLS.ctx Script.established)
    = Some (hmac_sha256
              (derive_secret
                 (hmac_sha256
                    (derive_secret
                       (hmac_sha256 (repeat x00 32) (repeat x00 32))
                       (lit "derived") [])
                    shared)
                 (lit "derived") [])
              (repeat x00 32)).
Proof.
  split; [exact script_established|].
  destruct (@C5_key_schedule_chain Toy.toy _ _ _ _ script_established)
    as (shared & Hshared & _ & _ & Hms & _).
  exists shared. split; [exact Hshared|exact Hms].
Defined.

(** C5, as stated, fails at context creation: the early secret is not
    computed there.  A context just created has no [early_secret], and no
    assignment to it has happened. *)
Lemma C5_no_early_secret_at_init :
  TinyTLS.early_secret (TinyTLS.TLSContext_init Script.private) = None /\
  TinyTLS.early_secret (TinyTLS.TLSContext_init Script.private)
  <> Some (hmac_sha256 (repeat x00 32) (repeat x00 32)) /\
  ~ In "early_secret"%string
      (TinyTLS.assigned (TinyTLS.TLSContext_init Script.private)).
Proof.
  split; [reflexivity|]. split; [discriminate|].
  simpl. intros [H|[H|[H|[]]]]; discriminate.
Qed.

(** ** C6 *)

Lemma C6_close_notify_alert_witness :
  TinyTLS.exit_ Script.established = Ok Script.closed /\
  exists a,
    TinyTLS.client_app_data_crypto (TinyTLS.ctx Script.established) = Some a /\
    outbox (TinyTLS.sock Script.closed)
    = outbox (TinyTLS.sock Script.established)
        ++ [fst (TinyTLS._encrypted_app_data [x02; x00] [x15] a)].
Proof.
  split; [exact script_closed|].
  destruct (@C6_close_notify_alert Toy.toy _ _ script_closed)
    as (a & Ha & Hout & _).
  exists a. split; [exact Ha|exact Hout].
Defined.

(** C6, as stated, fails: the alert sent on close starts with the level
    byte 0x02, not 0x01.  The record is the one sealed for [0x02 0x00], it
    is not the one sealed for [0x01 0x00], and its inner plaintext, which
    the reference AEAD leaves readable after the 5-byte header, starts
    with [0x02 0x00] and the alert content type. *)
Lemma C6_alert_level_is_two :
  TinyTLS.exit_ Script.established = Ok Script.closed /\
  last (outbox (TinyTLS.sock Script.closed)) []
  = fst (TinyTLS._encrypted_app_data [x02; x00] [x15] Script.client_app_aead) /\
  last (outbox (TinyTLS.sock Script.closed)) []
  <> fst (TinyTLS._encrypted_app_data [x01; x00] [x15] Script.client_app_aead) /\
  firstn 3 (skipn 5 (last (outbox (TinyTLS.sock Script.closed)) []))
  = [x02; x00; x15].
Proof.
  split; [exact script_closed|].
  split; [vm_compute; reflexivity|].
  split; [vm_compute; discriminate|].
  vm_compute; reflexivity.
Qed.

(** ** C7 *)

(** C7 at [recv(1)] with one record of plaintext ["abc"] on the transport
    and nothing buffered.  The [recv] of [tinytls13] returns all three
    bytes, more than the one asked for.  The [recv] of [tinytls] returns
    ["a"], keeps ["bc"] buffered and serves it at the next call. *)
Theorem C7_tinytls13_recv_ignores_length :
  Script.returned (TinyTLS13.recv Script.established13_abc 1)
  = Some (lit "abc") /\
  Script.returned (TinyTLS.recv Script.established_abc 1) = Some (lit "a") /\
  TinyTLS.read_buf Script.after_recv_1 = lit "bc" /\
  inbox (TinyTLS.sock Script.after_recv_1) = [] /\
  Script.returned (TinyTLS.recv Script.after_recv_1 5) = Some (lit "bc").
Proof.
  split; [vm_compute; reflexivity|].
  split; [vm_compute; reflexivity|].
  split; [vm_compute; reflexivity|].
  split; vm_compute; reflexivity.
Qed.

Lemma X1_recv_at_most_witness :
  (0 <= 1)%Z /\
  TinyTLS.recv Script.established_abc 1
  = Ok (fst Script.recv_1, snd Script.recv_1) /\
  (Z.of_nat (length (fst Script.recv_1)) <= 1)%Z.
Proof.
  assert (Hn : (0 <= 1)%Z) by lia.
  assert (Hrecv : TinyTLS.recv Script.established_abc 1
                  = Ok (fst Script.recv_1, snd Script.recv_1)).
  { rewrite <- surjective_pairing. apply from_ok_eq. vm_compute. reflexivity. }
  split; [exact Hn|]. split; [exact Hrecv|].
  exact (proj1 (@X1_recv_at_most Toy.toy _ _ _ _ Hn Hrecv)).
Defined.

(** ** C8 *)

Lemma C8_change_cipher_spec_skipped_transcript_pure_witness :
  TinyTLS.server_handshake Script.hello_done = Ok Script.handshaken /\
  TinyTLS.server_traffic_crypto (TinyTLS.ctx Script.hello_done)
  = Some Script.server_hs_aead /\
  is_ccs Script.ccs_record = true /\
  exists consumed,
    inbox (TinyTLS.sock Script.hello_done)
    = consumed ++ inbox (TinyTLS.sock Script.handshaken) /\
    TinyTLS.get_messages (TinyTLS.ctx Script.handshaken)
    = TinyTLS.get_messages (TinyTLS.ctx Script.hello_done)
        ++ concat (open_records Script.server_hs_aead consumed).
Proof.
  assert (Ha : TinyTLS.server_traffic_crypto (TinyTLS.ctx Script.hello_done)
               = Some Script.server_hs_aead) by (vm_compute; reflexivity).
  split; [exact script_handshaken|]. split; [exact Ha|].
  split; [reflexivity|].
  destruct (proj1 (proj2 (@C8_change_cipher_spec_skipped_transcript_pure Toy.toy))
              _ _ _ script_handshaken Ha)
    as (consumed & Hin & _ & Hget & _).
  exists consumed. split; [exact Hin|exact Hget].
Defined.

(** C8, as stated, fails on the run over [Script.alert_flight_inbox]: the
    server's second record opens, under the handshake keys, to the inner
    content type alert and the two bytes [02 28], and the handshake runs
    to completion with those two bytes in the transcript.  They are not a
    handshake-message body, and the transcript read as bytes is not a
    sequence of handshake-message bodies.  Nor is the truncated
    EncryptedExtensions that the run over [Script.truncated_inbox]
    leaves in its transcript. *)
Lemma C8_transcript_holds_an_alert :
  decrypt_and_verify Script.server_hs_aead
    (snd Script.alert_in_flight) (fst Script.alert_in_flight)
  = Some ([x02; x28], [x15], Toy.toy_next Script.server_hs_aead) /\
  is_ok Script.alert_run = true /\
  option_map (fun s => TinyTLS.messages (TinyTLS.ctx s))
    (match Script.alert_run with Ok s => Some s | Raise _ => None end)
  = Some [Script.client_hello_body; Script.server_hello_body;
          [x02; x28]; Script.server_finished [x02; x28]] /\
  whole_message [x02; x28] = false /\
  forallb whole_message
    (split_messages
       (Script.client_hello_body ++ Script.server_hello_body
          ++ [x02; x28] ++ Script.server_finished [x02; x28]))
  = false /\
  option_map (fun s => existsb (fun m => negb (whole_message m))
                         (TinyTLS.messages (TinyTLS.ctx s)))
    (match Script.truncated_run with Ok s => Some s | Raise _ => None end)
  = Some true.
Proof.
  split; [vm_compute; reflexivity|].
  split; [vm_compute; reflexivity|].
  split; [vm_compute; reflexivity|].
  split; [vm_compute; reflexivity|].
  split; vm_compute; reflexivity.
Qed.

(** ** C9 *)

Lemma C9_truncated_message_appended_witness :
  x08 <> x14 /\
  (Z.of_nat (length Script.truncated_extensions)
   < bytes_to_bint (slice Script.truncated_extensions 1 4) + 4)%Z /\
  TinyTLS.handshake_messages sha256 Script.ctx_server_hello false
    Script.truncated_extensions
  = Ok (TinyTLS.append_message Script.ctx_server_hello
          Script.truncated_extensions, false).
Proof.
  assert (Hx : x08 <> x14) by discriminate.
  assert (Hshort : (Z.of_nat (length Script.truncated_extensions)
                    < bytes_to_bint (slice Script.truncated_extensions 1 4) + 4)%Z)
    by (vm_compute; reflexivity).
  split; [exact Hx|]. split; [exact Hshort|].
  exact (proj1 (@C9_truncated_message_appended Toy.toy sha256
                  Script.ctx_server_hello false x08 [x00; x00; x10; xaa]
                  Hx Hshort)).
Defined.

(** C9, as stated, fails: an EncryptedExtensions that announces 16 bytes
    and brings one raises no error.  The inner loop appends the five bytes
    it got and ends with its flag unchanged; and a handshake in which that
    truncated message is followed by the server's Finished over the
    transcript so far runs to completion, the short message in its
    transcript. *)
Lemma C9_truncated_message_accepted :
  bytes_to_bint (slice Script.truncated_extensions 1 4) = 16%Z /\
  length (slice_from Script.truncated_extensions 4) = 1 /\
  Script.outcome
    (TinyTLS.handshake_messages sha256 Script.ctx_server_hello false
       Script.truncated_extensions)
  = Some ([Script.client_hello_body; Script.server_hello_body;
           Script.truncated_extensions], false) /\
  is_ok Script.truncated_run = true /\
  option_map (fun s => TinyTLS.messages (TinyTLS.ctx s))
    (match Script.truncated_run with Ok s => Some s | Raise _ => None end)
  = Some [Script.client_hello_body; Script.server_hello_body;
          Script.truncated_extensions;
          Script.server_finished Script.truncated_extensions].
Proof.
  split; [vm_compute; reflexivity|].
  split; [vm_compute; reflexivity|].
  split; [vm_compute; reflexivity|].
  split; vm_compute; reflexivity.
Qed.

(** ** C10 *)

Lemma C10_empty_record_yields_empty_read_witness :
  TinyTLS.read_buf Script.established_empty = [] /\
  inbox (TinyTLS.sock Script.established_empty)
  = (fst Script.app_record_empty, snd Script.app_record_empty)
      :: [Script.app_record_de] /\
  TinyTLS.server_app_data_crypto (TinyTLS.ctx Script.established_empty)
  = Some Script.server_app_aead /\
  decrypt_and_verify Script.server_app_aead (snd Script.app_record_empty)
    (fst Script.app_record_empty)
  = Some ([], [x17], Toy.toy_next Script.server_app_aead) /\
  exists s',
    TinyTLS.recv Script.established_empty 100 = Ok ([], s') /\
    inbox (TinyTLS.sock s') = [Script.app_record_de] /\
    TinyTLS.read_buf s' = [].
Proof.
  assert (Hbuf : TinyTLS.read_buf Script.established_empty = [])
    by (vm_compute; reflexivity).
  assert (Hin : inbox (TinyTLS.sock Script.established_empty)
                = (fst Script.app_record_empty, snd Script.app_record_empty)
                    :: [Script.app_record_de])
    by (vm_compute; reflexivity).
  assert (Ha : TinyTLS.server_app_data_crypto (TinyTLS.ctx Script.established_empty)
               = Some Script.server_app_aead) by (vm_compute; reflexivity).
  assert (Hdec : decrypt_and_verify Script.server_app_aead
                   (snd Script.app_record_empty) (fst Script.app_record_empty)
                 = Some ([], [x17], Toy.toy_next Script.server_app_aead))
    by (vm_compute; reflexivity).
  split; [exact Hbuf|]. split; [exact Hin|]. split; [exact Ha|].
  split; [exact Hdec|].
  destruct (@C10_empty_record_yields_empty_read Toy.toy
              Script.established_empty 100 _ _ _ _ _ _ Hbuf Hin Ha Hdec)
    as (s' & Hrecv & Hrest & Hbuf' & _).
  exists s'. split; [exact Hrecv|]. split; [exact Hrest|exact Hbuf'].
Defined.

(** ** Further properties at the scripted runs *)













